(** * SelectCommon.vue: a remotely paginated select, as a state machine

    A shallow embedding of the [<script setup>] block of
    [src/SelectCommon.vue].  The component keeps six reactive cells
    ([value], [itemList], [totalItems], [loading], [currentPage],
    [hasMore]) and reacts to events of the host toolkit: the popup opens or
    closes, the user types a query, the popup list is scrolled, a prop
    changes.  Every handler is an [async] function that awaits the injected
    [fetchData] at most once, so a handler is modelled as a computation in a
    small state / exception / trace monad:

    - the state is the record of the six cells;
    - an exception is a JavaScript [throw] (or a rejected promise reaching
      an [await]);
    - the trace lists what the component does to its environment, in order:
      calls of [fetchData] (with the cells as they are at the call), calls of
      the toast utility, listener registrations, emitted events.

    Modelling choices.  JavaScript numbers are doubles; the numbers of this
    component are page counters, list lengths and record ids, modelled as
    [Z].  An [await] is modelled as a plain sequential step: handlers that
    interleave at their awaits are outside this model.  [debounce] only
    decides when the wrapped function runs; [remoteSearch] and
    [handleScroll] below are the wrapped functions, and the timer is modelled
    separately by [Debounce]. *)

From stdpp Require Import gmap strings list fin_maps.
From Stdlib Require Import ZArith.

Local Open Scope Z_scope.

(** ** JavaScript values *)

Inductive JSVal : Type :=
  | VUndef
  | VNull
  | VBool (b : bool)
  | VNum (n : Z)
  | VStr (s : string).

#[global] Instance JSVal_eq_dec : EqDecision JSVal.
Proof. solve_decision. Defined.

(** Truthiness, as [if (v)] and [v && w] test it. *)
Definition truthy (v : JSVal) : bool :=
  match v with
  | VUndef | VNull => false
  | VBool b => b
  | VNum n => negb (n =? 0)
  | VStr s => negb (String.eqb s "")
  end.

(** [a === b]: same type and same value, no coercion. *)
Definition strict_eq (a b : JSVal) : bool := bool_decide (a = b).

(** [interface FetchParams { [key: string]: any }] *)
Abbreviation FetchParams := (gmap string JSVal).

(** [obj.key] on a plain object: [undefined] when the key is absent. *)
Definition prop_get (obj : FetchParams) (key : string) : JSVal :=
  default VUndef (obj !! key).

(** ** Data *)

(** An element of [res.items], of which the component reads [id] and
    [name]. *)
Record Item : Type := { item_id : JSVal; item_name : JSVal }.

(** An entry of [itemList]: [{ label, value }]. *)
Record SelectOption : Type := { opt_label : JSVal; opt_value : JSVal }.

(** What [fetchData] resolves with: [res.error] ([VUndef] when absent) and
    [res.items] ([None] when absent). *)
Record Response : Type := { error : JSVal; items : option (list Item) }.

(** The promise returned by [fetchData(params)], as seen at the [await]:
    it resolves, or it rejects (a [fetchData] that throws before returning a
    promise reaches the same [catch]).  A promise that resolves with
    something lines 67-71 cannot read ([null], [items] that is not an array)
    is not a [Response]: the [TypeError] then thrown inside the [try] takes
    the path of a rejection with that error as its reason. *)
Inductive FetchOutcome : Type :=
  | Resolved (res : Response)
  | Rejected (reason : JSVal).

(** [defineProps]; [placeholder] and [disabled] are only read by the
    template. *)
Record Props : Type := {
  fetchData : FetchParams -> FetchOutcome;
  modelValue : JSVal;
  name : string;
  param : FetchParams
}.

(** The reactive cells of the component ([noDataText] is never written). *)
Record State : Type := {
  value : JSVal;
  itemList : list SelectOption;
  totalItems : Z;
  loading : bool;
  currentPage : Z;
  hasMore : bool
}.

(** The cells at setup time. *)
Definition init (props : Props) : State :=
  {| value := modelValue props; itemList := []; totalItems := 0;
     loading := false; currentPage := 1; hasMore := true |}.

Definition set_value (v : JSVal) (st : State) : State :=
  {| value := v; itemList := itemList st; totalItems := totalItems st;
     loading := loading st; currentPage := currentPage st;
     hasMore := hasMore st |}.

Definition set_itemList (l : list SelectOption) (st : State) : State :=
  {| value := value st; itemList := l; totalItems := totalItems st;
     loading := loading st; currentPage := currentPage st;
     hasMore := hasMore st |}.

Definition set_totalItems (n : Z) (st : State) : State :=
  {| value := value st; itemList := itemList st; totalItems := n;
     loading := loading st; currentPage := currentPage st;
     hasMore := hasMore st |}.

Definition set_loading (b : bool) (st : State) : State :=
  {| value := value st; itemList := itemList st; totalItems := totalItems st;
     loading := b; currentPage := currentPage st; hasMore := hasMore st |}.

Definition set_currentPage (n : Z) (st : State) : State :=
  {| value := value st; itemList := itemList st; totalItems := totalItems st;
     loading := loading st; currentPage := n; hasMore := hasMore st |}.

Definition set_hasMore (b : bool) (st : State) : State :=
  {| value := value st; itemList := itemList st; totalItems := totalItems st;
     loading := loading st; currentPage := currentPage st; hasMore := b |}.

(** ** Effects *)

Inductive Event : Type :=
  | EvFetch (params : FetchParams) (cells : State)
      (** [props.fetchData(params)], called while the cells are [cells] *)
  | EvMessage (payload : JSVal) (customClass type : string)
      (** [message(payload, { customClass, type })] *)
  | EvAddScrollListener (selector : string)
  | EvSetScrollTop (selector : string) (top : Z)
  | EvRemoveScrollListener (selector : string)
  | EvEmit (event : string) (payload : JSVal).

Inductive Completion (A : Type) : Type :=
  | Returned (a : A)
  | Thrown (e : JSVal).
Arguments Returned {A} a.
Arguments Thrown {A} e.

(** A handler run: from the cells before, the completion, the cells after
    and the effects in order. *)
Definition M (A : Type) : Type := State -> Completion A * State * list Event.

#[global] Instance M_ret : MRet M := λ A a st, (Returned a, st, []).

#[global] Instance M_bind : MBind M := λ A B k m st,
  match m st with
  | (Returned a, st1, t1) =>
      match k a st1 with (c, st2, t2) => (c, st2, t1 ++ t2) end
  | (Thrown e, st1, t1) => (Thrown e, st1, t1)
  end.

Definition get : M State := λ st, (Returned st, st, []).
Definition modify (f : State -> State) : M unit := λ st, (Returned tt, f st, []).
Definition emit (ev : Event) : M unit := λ st, (Returned tt, st, [ev]).
Definition throw {A : Type} (e : JSVal) : M A := λ st, (Thrown e, st, []).

(** [try { body } catch (error) { handler(error) } finally { fin }]: the
    handler runs when the body throws, [fin] runs in every case, and what
    [fin] throws replaces the completion reached before it. *)
Definition try_catch_finally {A : Type}
    (body : M A) (handler : JSVal -> M A) (fin : M unit) : M A := λ st,
  let '(c1, st1, t1) :=
    match body st with
    | (Returned a, st1, t1) => (Returned a, st1, t1)
    | (Thrown e, st1, t1) =>
        match handler e st1 with (c, st2, t2) => (c, st2, t1 ++ t2) end
    end in
  match fin st1 with
  | (Returned _, st2, t2) => (c1, st2, t1 ++ t2)
  | (Thrown e, st2, t2) => (Thrown e, st2, t1 ++ t2)
  end.

(** Projections of a run. *)
Definition completion {A : Type} (r : Completion A * State * list Event) :
  Completion A := r.1.1.
Definition cells {A : Type} (r : Completion A * State * list Event) : State :=
  r.1.2.
Definition trace {A : Type} (r : Completion A * State * list Event) :
  list Event := r.2.

(** The parameter objects [fetchData] was called with, in order. *)
Definition fetch_calls (t : list Event) : list FetchParams :=
  omap (λ ev, match ev with EvFetch params _ => Some params | _ => None end) t.

(** The payloads the toast utility was called with, in order. *)
Definition toasts (t : list Event) : list JSVal :=
  omap (λ ev, match ev with EvMessage payload _ _ => Some payload | _ => None end) t.

(** Modelled from the spec: [message], imported from [@/utils/message], is
    not part of the sources.  The spec describes it as a notification sink
    "invoked with [(errorPayload, {customClass, type:'error'})] on failure":
    it shows the notification and returns. *)
Definition message (payload : JSVal) (customClass type : string) : M unit :=
  emit (EvMessage payload customClass type).

Section Component.

Variable props : Props.

(** [await props.fetchData(params)] *)
Definition await_fetchData (params : FetchParams) : M Response :=
  st ← get;
  emit (EvFetch params st) ;;
  match fetchData props params with
  | Resolved res => mret res
  | Rejected reason => throw reason
  end.

(** [getData], lines 61-110. *)
Definition getData (params : FetchParams) (isLoadMore : bool) : M unit :=
  st ← get;
  if negb (hasMore st) && isLoadMore then mret tt else
  modify (set_loading true) ;;
  try_catch_finally
    (res ← await_fetchData params;
     if negb (truthy (error res)) then
       let newItems :=
         default []
           (map (λ item, {| opt_label := item_name item;
                            opt_value := item_id item |}) <$> items res) in
       (if isLoadMore
        then st ← get; modify (set_itemList (itemList st ++ newItems))
        else modify (set_itemList newItems)) ;;
       st ← get;
       (if truthy (VStr (name props)) && truthy (value st) then
          let existingItem :=
            find (λ item, strict_eq (opt_value item) (value st)) (itemList st) in
          if negb (bool_decide (is_Some existingItem)) then
            modify (set_itemList
                      ({| opt_label := VStr (name props);
                          opt_value := value st |} :: itemList st))
          else mret tt
        else mret tt) ;;
       modify (set_hasMore
                 (strict_eq (VNum (Z.of_nat (length newItems)))
                            (prop_get params "MaxResultCount"))) ;;
       st ← get;
       modify (set_totalItems (Z.of_nat (length (itemList st))))
     else
       modify (set_itemList []) ;;
       modify (set_hasMore false) ;;
       modify (set_totalItems 0))
    (λ error,
       modify (set_itemList []) ;;
       modify (set_hasMore false) ;;
       modify (set_totalItems 0) ;;
       message error "el" "error")
    (modify (set_loading false)).

(** [watch(() => props.modelValue, ...)], lines 42-44. *)
Definition watch_modelValue (newVal : JSVal) : M unit :=
  modify (set_value newVal).

(** [watch(() => props.name, ...)], lines 47-58; [newVal] is the new value
    of the [name] prop. *)
Definition watch_name (newVal : string) : M unit :=
  st ← get;
  if truthy (VStr newVal) && truthy (value st) then
    let existingItem :=
      find (λ item, strict_eq (opt_value item) (value st)) (itemList st) in
    if negb (bool_decide (is_Some existingItem)) then
      modify (set_itemList
                ({| opt_label := VStr newVal; opt_value := value st |}
                 :: itemList st))
    else mret tt
  else mret tt.

(** The function wrapped by [remoteSearch], lines 113-133. *)
Definition remoteSearch (query : string) : M unit :=
  modify (set_currentPage 1) ;;
  modify (set_hasMore true) ;;
  if truthy (VStr query) then
    let params : FetchParams :=
      <["keyword" := VStr query]>
        (<["MaxResultCount" := VNum 10]>
           (<["skipCount" := VNum 1]> (param props))) in
    getData params false
  else
    let params : FetchParams :=
      <["MaxResultCount" := VNum 10]>
        (<["skipCount" := VNum 1]> (param props)) in
    getData params false.

(** [onMounted], lines 135-143. *)
Definition onMounted : M unit :=
  let params : FetchParams :=
    <["MaxResultCount" := VNum 10]>
      (<["skipCount" := VNum 1]> (param props)) in
  getData params false.

(** The target of a scroll event, with the three numbers line 189 reads. *)
Record ScrollTarget : Type := {
  scrollHeight : Z;
  scrollTop : Z;
  clientHeight : Z
}.

(** The function wrapped by [handleScroll], lines 187-200. *)
Definition handleScroll (target : ScrollTarget) : M unit :=
  let bottom :=
    strict_eq (VNum (scrollHeight target))
              (VNum (scrollTop target + clientHeight target)) in
  st ← get;
  if bottom && negb (loading st) && hasMore st then
    modify (λ st, set_currentPage (currentPage st + 1) st) ;;
    st ← get;
    let params : FetchParams :=
      <["MaxResultCount" := VNum 10]>
        (<["skipCount" := VNum (currentPage st)]> (param props)) in
    getData params true
  else mret tt.

(** Which of the two selectors of [handleVisibleChange] match an element
    of the document. *)
Record Document : Type := {
  has_loadmore_wrap : bool;   (* .myselect-loadmore .el-select-dropdown__wrap *)
  has_dropdown : bool         (* .el-select-dropdown *)
}.

(** [handleVisibleChange], lines 145-175. *)
Definition handleVisibleChange (document : Document) (visible : bool) : M unit :=
  if visible then
    modify (set_itemList []) ;;
    modify (set_totalItems 0) ;;
    modify (set_hasMore true) ;;
    modify (set_currentPage 1) ;;
    let params : FetchParams :=
      <["MaxResultCount" := VNum 10]>
        (<["skipCount" := VNum 1]> (param props)) in
    getData params false ;;
    if has_loadmore_wrap document then
      emit (EvAddScrollListener ".myselect-loadmore .el-select-dropdown__wrap") ;;
      emit (EvSetScrollTop ".myselect-loadmore .el-select-dropdown__wrap" 0)
    else mret tt
  else
    if has_dropdown document then
      emit (EvRemoveScrollListener ".el-select-dropdown")
    else mret tt.

(** The template: [v-model="value"] writes the picked value to the cell and
    the [update:modelValue] listener re-emits it. *)
Definition pick (val : JSVal) : M unit :=
  modify (set_value val) ;;
  emit (EvEmit "update:modelValue" val).

End Component.

(** [debounce], lines 178-185.  The closure variable [timeout] is the armed
    timer, if any, together with the arguments its callback will pass on;
    delays are not modelled, only the order of calls and expiries. *)
Module Debounce.

Definition Timer (A : Type) : Type := option A.

(** A call of the debounced function: [clearTimeout] then [setTimeout]. *)
Definition call {A : Type} (args : A) (timeout : Timer A) : Timer A :=
  Some args.

(** The armed timer expires: the wrapped function runs on the arguments
    of the latest call. *)
Definition expire {A : Type} (func : A -> M unit) (timeout : Timer A) :
    M unit * Timer A :=
  match timeout with
  | Some args => (func args, None)
  | None => (mret tt, None)
  end.

End Debounce.

(** ** Reference values

    The pure content of the [if (!res.error)] branch of [getData], used to
    state what a load leaves in [itemList]. *)

(** [res.items?.map(item => ({ label: item.name, value: item.id })) || []] *)
Definition newItems_of (res : Response) : list SelectOption :=
  default []
    (map (λ item, {| opt_label := item_name item; opt_value := item_id item |})
       <$> items res).

Definition values (l : list SelectOption) : list JSVal := map opt_value l.

(** The entry lines 85-88 build. *)
Definition pinned_entry (props : Props) (st : State) : SelectOption :=
  {| opt_label := VStr (name props); opt_value := value st |}.

(** The list lines 73-79 assign to [itemList]. *)
Definition merged (st : State) (isLoadMore : bool) (res : Response) :
    list SelectOption :=
  if isLoadMore then itemList st ++ newItems_of res else newItems_of res.

(** The guard of line 62 lets the call through. *)
Definition proceeds (st : State) (isLoadMore : bool) : bool :=
  negb (negb (hasMore st) && isLoadMore).

(** A successful load: the call gets past line 62, and [fetchData] resolves
    with a response whose [error] is falsy. *)
Definition successful_load (props : Props) (st : State)
    (params : FetchParams) (isLoadMore : bool) (res : Response) : Prop :=
  proceeds st isLoadMore = true ∧
  fetchData props params = Resolved res ∧
  truthy (error res) = false.

(** The parameter object of a first page, as [onMounted],
    [handleVisibleChange] and the empty-query branch of [remoteSearch]
    build it. *)
Definition first_page_params (props : Props) : FetchParams :=
  <["MaxResultCount" := VNum 10]> (<["skipCount" := VNum 1]> (param props)).

(** The list lines 82-90 leave in [itemList] when they start from [l]. *)
Definition with_pinned (props : Props) (st : State) (l : list SelectOption) :
    list SelectOption :=
  if truthy (VStr (name props)) && truthy (value st) then
    match find (λ item, strict_eq (opt_value item) (value st)) l with
    | Some _ => l
    | None => pinned_entry props st :: l
    end
  else l.

(** The cells after a load that failed, whichever way. *)
Definition cleared (st : State) : State :=
  {| value := value st; itemList := []; totalItems := 0; loading := false;
     currentPage := currentPage st; hasMore := false |}.

(** The load failed: the promise rejected, or it resolved with a truthy
    [error]. *)
Definition failed (outcome : FetchOutcome) : bool :=
  match outcome with
  | Resolved res => truthy (error res)
  | Rejected _ => true
  end.

(** The number of items [fetchData] returned ([res.items] absent counts as
    none). *)
Definition returnedCount (res : Response) : Z :=
  Z.of_nat (length (default [] (items res))).

(** The cells as lines 148-151 leave them. *)
Definition reset (st : State) : State :=
  {| value := value st; itemList := []; totalItems := 0;
     loading := loading st; currentPage := 1; hasMore := true |}.

(** What lines 162-167 do to the document. *)
Definition attach_events (document : Document) : list Event :=
  if has_loadmore_wrap document then
    [EvAddScrollListener ".myselect-loadmore .el-select-dropdown__wrap";
     EvSetScrollTop ".myselect-loadmore .el-select-dropdown__wrap" 0]
  else [].

(** The parameter object of line 193 for page [n]. *)
Definition page_params (props : Props) (n : Z) : FetchParams :=
  <["MaxResultCount" := VNum 10]> (<["skipCount" := VNum n]> (param props)).

(** The parameter object [remoteSearch] builds for [query]. *)
Definition search_params (props : Props) (query : string) : FetchParams :=
  if decide (query = "") then first_page_params props
  else <["keyword" := VStr query]> (first_page_params props).

(** ** Concrete components and cells

    Used below to run the handlers on explicit inputs. *)

Definition mk_item (i : Z) (n : string) : Item :=
  {| item_id := VNum i; item_name := VStr n |}.

Definition mk_option (n : string) (i : Z) : SelectOption :=
  {| opt_label := VStr n; opt_value := VNum i |}.

(** A component whose [fetchData] answers every call with [outcome]. *)
Definition props_answering (outcome : FetchOutcome) (v : JSVal) (n : string) :
    Props :=
  {| fetchData := λ _, outcome; modelValue := v; name := n; param := ∅ |}.

Definition page_of (l : list Item) : FetchOutcome :=
  Resolved {| error := VUndef; items := Some l |}.

(** A page in which the server lists the record 1 twice. *)
Definition props_twice : Props :=
  props_answering (page_of [mk_item 1 "a"; mk_item 1 "a"]) (VStr "") "".

(** The record 7 is selected and labelled, the server lists 1 and 2. *)
Definition props_selected : Props :=
  props_answering (page_of [mk_item 1 "a"; mk_item 2 "b"]) (VNum 7) "g".

(** The record 2 is selected and labelled, the next page holds record 3. *)
Definition props_next_page : Props :=
  props_answering (page_of [mk_item 3 "c"]) (VNum 2) "b".

(** The cells after a first page [a, b] with 2 selected, more pages
    expected. *)
Definition st_first_page : State :=
  {| value := VNum 2; itemList := [mk_option "a" 1; mk_option "b" 2];
     totalItems := 2; loading := false; currentPage := 1; hasMore := true |}.

Definition props_error_flag : Props :=
  props_answering (Resolved {| error := VBool true; items := None |})
                  (VStr "") "".

Definition props_rejecting : Props :=
  props_answering (Rejected (VStr "Network Error")) (VStr "") "".

(** A server with ten records per page. *)
Definition ten_items : list Item :=
  map (λ i, mk_item i "x") [1; 2; 3; 4; 5; 6; 7; 8; 9; 10].

Definition props_ten : Props :=
  props_answering (page_of ten_items) (VStr "") "".

Definition at_bottom : ScrollTarget :=
  {| scrollHeight := 500; scrollTop := 226; clientHeight := 274 |}.

Definition doc_open : Document :=
  {| has_loadmore_wrap := true; has_dropdown := true |}.

(** A server with two pages of ten records, 1 to 10 and 11 to 20, none of
    them listed twice; it answers by the [skipCount] asked for. *)
Definition first_page_items : list Item :=
  map (λ i, mk_item i "x") [1; 2; 3; 4; 5; 6; 7; 8; 9; 10].

Definition second_page_items : list Item :=
  map (λ i, mk_item i "x") [11; 12; 13; 14; 15; 16; 17; 18; 19; 20].

Definition two_page_server (params : FetchParams) : FetchOutcome :=
  match params !! "skipCount" with
  | Some (VNum 1) => page_of first_page_items
  | Some (VNum 2) => page_of second_page_items
  | _ => page_of []
  end.

(** The record 15, of the second page, is selected and labelled. *)
Definition props_two_pages : Props :=
  {| fetchData := two_page_server; modelValue := VNum 15; name := "g";
     param := ∅ |}.

(** ** Sessions

    Between two handlers the host runs nothing of the component, so a
    session is the mount followed by a list of the things that can happen
    to it.  A prop change is applied to the props before its watcher runs;
    a watcher is run for every change listed, also one that repeats the
    value the prop already has (the toolkit skips those). *)

Inductive Action : Type :=
  | Search (query : string)
      (** the timer of the debounced [remoteSearch] expires *)
  | Scroll (target : ScrollTarget)
      (** the timer of the debounced [handleScroll] expires *)
  | VisibleChange (document : Document) (visible : bool)
  | ModelValueChanged (newVal : JSVal)
  | NameChanged (newVal : string)
  | ParamChanged (newParam : FetchParams)
  | Picked (val : JSVal).

(** The props once the parent has made the change. *)
Definition props_after (props : Props) (a : Action) : Props :=
  match a with
  | ModelValueChanged newVal =>
      {| fetchData := fetchData props; modelValue := newVal;
         name := name props; param := param props |}
  | NameChanged newVal =>
      {| fetchData := fetchData props; modelValue := modelValue props;
         name := newVal; param := param props |}
  | ParamChanged newParam =>
      {| fetchData := fetchData props; modelValue := modelValue props;
         name := name props; param := newParam |}
  | _ => props
  end.

(** The code that runs for an action; [props] are the props after the
    change.  No watcher is registered on [param]. *)
Definition handler (props : Props) (a : Action) : M unit :=
  match a with
  | Search query => remoteSearch props query
  | Scroll target => handleScroll props target
  | VisibleChange document visible => handleVisibleChange props document visible
  | ModelValueChanged newVal => watch_modelValue newVal
  | NameChanged newVal => watch_name newVal
  | ParamChanged _ => mret tt
  | Picked val => pick val
  end.

(** The actions in order, each handler starting from the cells the previous
    one left: the props and cells at the end, and everything done. *)
Fixpoint run (props : Props) (actions : list Action) (st : State) :
    Props * State * list Event :=
  match actions with
  | [] => (props, st, [])
  | a :: rest =>
      let props1 := props_after props a in
      let r := handler props1 a st in
      let '(props2, st2, t2) := run props1 rest (cells r) in
      (props2, st2, trace r ++ t2)
  end.

(** A session: setup, [onMounted], then the actions. *)
Definition session (props : Props) (actions : list Action) :
    Props * State * list Event :=
  let r := onMounted props (init props) in
  let '(props2, st2, t2) := run props actions (cells r) in
  (props2, st2, trace r ++ t2).

(** The debounced function called once for each element of [burst], in
    order, with no expiry in between. *)
Definition burst_calls {A : Type} (burst : list A)
    (timeout : Debounce.Timer A) : Debounce.Timer A :=
  foldl (λ t args, Debounce.call args t) timeout burst.

(** The keys every parameter object of the component sets itself. *)
Definition own_keys : list string := ["skipCount"; "MaxResultCount"; "keyword"].

(** ** Runs of [getData], case by case *)

Section GetData.

Context (props : Props) (params : FetchParams) (isLoadMore : bool) (st : State).

Lemma getData_skipped :
  proceeds st isLoadMore = false →
  getData props params isLoadMore st = (Returned tt, st, []).
Proof.
  unfold proceeds, getData. intros H.
  apply negb_false_iff in H.
  cbv [mbind M_bind get mret M_ret]. by rewrite H.
Qed.

Lemma getData_resolved_ok (res : Response) :
  successful_load props st params isLoadMore res →
  getData props params isLoadMore st =
    (Returned tt,
     {| value := value st;
        itemList := with_pinned props st (merged st isLoadMore res);
        totalItems :=
          Z.of_nat (length (with_pinned props st (merged st isLoadMore res)));
        loading := false;
        currentPage := currentPage st;
        hasMore := strict_eq (VNum (Z.of_nat (length (newItems_of res))))
                             (prop_get params "MaxResultCount") |},
     [EvFetch params (set_loading true st)]).
Proof.
  intros (Hgo & Hres & Herr).
  unfold proceeds in Hgo. apply negb_true_iff in Hgo.
  unfold getData, await_fetchData, try_catch_finally, with_pinned, merged.
  cbv [mbind M_bind get mret M_ret modify emit throw message].
  rewrite Hgo, Hres; cbn. rewrite Herr; cbn.
  fold (newItems_of res).
  destruct isLoadMore; cbn;
    destruct (negb (String.eqb (name props) "") && truthy (value st)); cbn;
    try reflexivity;
    match goal with |- context [find ?f ?l] => destruct (find f l) eqn:E end;
    cbn; reflexivity.
Qed.

Lemma getData_resolved_error (res : Response) :
  proceeds st isLoadMore = true →
  fetchData props params = Resolved res →
  truthy (error res) = true →
  getData props params isLoadMore st =
    (Returned tt, cleared st, [EvFetch params (set_loading true st)]).
Proof.
  intros Hgo Hres Herr.
  unfold proceeds in Hgo. apply negb_true_iff in Hgo.
  unfold getData, await_fetchData, try_catch_finally.
  cbv [mbind M_bind get mret M_ret modify emit throw message].
  rewrite Hgo, Hres; cbn. by rewrite Herr.
Qed.

Lemma getData_rejected (reason : JSVal) :
  proceeds st isLoadMore = true →
  fetchData props params = Rejected reason →
  getData props params isLoadMore st =
    (Returned tt, cleared st,
     [EvFetch params (set_loading true st); EvMessage reason "el" "error"]).
Proof.
  intros Hgo Hres.
  unfold proceeds in Hgo. apply negb_true_iff in Hgo.
  unfold getData, await_fetchData, try_catch_finally.
  cbv [mbind M_bind get mret M_ret modify emit throw message].
  by rewrite Hgo, Hres.
Qed.

(** Whatever [fetchData] answers, a call that gets past line 62 returns
    normally, with [loading] reset, after exactly one call of [fetchData]
    made while [loading] is set. *)
Lemma getData_proceeds :
  proceeds st isLoadMore = true →
  ∃ st' rest,
    getData props params isLoadMore st =
      (Returned tt, st', EvFetch params (set_loading true st) :: rest) ∧
    loading st' = false ∧ value st' = value st ∧
    currentPage st' = currentPage st ∧
    fetch_calls rest = [].
Proof.
  intros Hgo.
  destruct (fetchData props params) as [res|reason] eqn:Hres.
  - destruct (truthy (error res)) eqn:Herr.
    + rewrite (getData_resolved_error res) by done.
      by eexists _, [].
    + rewrite (getData_resolved_ok res) by done.
      by eexists _, [].
  - rewrite (getData_rejected reason) by done.
    by eexists _, [_].
Qed.

End GetData.

(** [find] with a [===] test misses exactly when no entry has the value. *)
Lemma find_value_None (v : JSVal) (l : list SelectOption) :
  find (λ item, strict_eq (opt_value item) v) l = None ↔ v ∉ values l.
Proof.
  unfold values, strict_eq. induction l as [|x l IH]; cbn.
  - split; [intros _; apply not_elem_of_nil | done].
  - rewrite not_elem_of_cons. case_bool_decide as Hx.
    + split; [done | intros [Hne _]; congruence].
    + rewrite IH. split; [intros ?; split; [congruence | done] | by intros [_ ?]].
Qed.

(** Lines 82-90, run on a list without duplicate values, leave a list
    without duplicate values. *)
Lemma with_pinned_NoDup (props : Props) (st : State) (l : list SelectOption) :
  NoDup (values l) → NoDup (values (with_pinned props st l)).
Proof.
  intros Hl. unfold with_pinned.
  destruct (truthy (VStr (name props)) && truthy (value st)); [|done].
  destruct (find _ l) eqn:E; [done|].
  apply find_value_None in E. by apply NoDup_cons.
Qed.

(** When no entry has the selected value, lines 82-90 prepend the entry. *)
Lemma with_pinned_absent (props : Props) (st : State) (l : list SelectOption) :
  truthy (VStr (name props)) = true → truthy (value st) = true →
  value st ∉ values l →
  with_pinned props st l = pinned_entry props st :: l.
Proof.
  intros Hn Hv Hl. unfold with_pinned. rewrite Hn, Hv; cbn.
  apply find_value_None in Hl. by rewrite Hl.
Qed.

(** When some entry has the selected value, lines 82-90 change nothing. *)
Lemma with_pinned_present (props : Props) (st : State) (l : list SelectOption) :
  value st ∈ values l → with_pinned props st l = l.
Proof.
  intros Hl. unfold with_pinned.
  destruct (truthy (VStr (name props)) && truthy (value st)); [|done].
  destruct (find _ l) eqn:E; [done|].
  by apply find_value_None in E.
Qed.

(** The [name] watcher is the same step on the current list. *)
Lemma watch_name_run (props : Props) (st : State) :
  watch_name (name props) st =
    (Returned tt, set_itemList (with_pinned props st (itemList st)) st, []).
Proof.
  unfold watch_name, with_pinned.
  cbv [mbind M_bind get mret M_ret modify].
  destruct (truthy (VStr (name props)) && truthy (value st)); cbn;
    [|by destruct st].
  destruct (find _ (itemList st)); cbn; [by destruct st | done].
Qed.

(** So does the [name] watcher (lines 47-58). *)
Lemma watch_name_NoDup (props : Props) (st : State) :
  NoDup (values (itemList st)) →
  NoDup (values (itemList (cells (watch_name (name props) st)))).
Proof. rewrite watch_name_run. apply with_pinned_NoDup. Qed.

(** ** The debounced wrappers *)

(** Calls that arrive while the timer is armed replace one another: at the
    expiry the wrapped function runs once, on the arguments of the latest
    call, and the timer is disarmed. *)
Lemma debounce_latest_call_wins (A : Type) (func : A -> M unit)
    (earlier latest : A) (timeout : Debounce.Timer A) :
  Debounce.expire func
    (Debounce.call latest (Debounce.call earlier timeout)) =
  (func latest, None).
Proof. reflexivity. Qed.

(** Typing "ab" then "abc" before the timer expires fetches once, with the
    latest query. *)
Example search_debounced_once :
  fetch_calls
    (trace ((Debounce.expire (remoteSearch props_ten)
               (Debounce.call "abc" (Debounce.call "ab" None))).1
              (init props_ten)))
  = [<["keyword" := VStr "abc"]>
       (<["MaxResultCount" := VNum 10]> (<["skipCount" := VNum 1]> ∅))].
Proof. vm_compute. reflexivity. Qed.

(** ** C1: duplicates in [itemList] *)

(** An appending load whose page holds a value that is already listed
    lists it twice: lines 73-75 append the page as it is, and the test of
    line 83 then finds the value, so lines 84-89 leave the list alone. *)
Lemma getData_append_repeats_listed_value (props : Props)
    (params : FetchParams) (st : State) (res : Response) (v : JSVal) :
  successful_load props st params true res →
  v ∈ values (itemList st) →
  v ∈ values (newItems_of res) →
  ¬ NoDup (values (itemList (cells (getData props params true st)))).
Proof.
  intros Hok Hold Hnew. rewrite (getData_resolved_ok _ _ _ _ res Hok). cbn.
  intros Hnd.
  assert (Hmerged : NoDup (values (itemList st ++ newItems_of res))).
  { unfold with_pinned in Hnd.
    destruct (truthy (VStr (name props)) && truthy (value st)); [|done].
    destruct (find _ _); [done|]. by apply NoDup_cons in Hnd as [_ ?]. }
  unfold values in Hmerged. rewrite map_app in Hmerged.
  apply NoDup_app in Hmerged as (_ & Hdisjoint & _).
  by apply (Hdisjoint v).
Qed.

(** A page that lists the same [id] twice is copied as it is, too. *)
Example getData_keeps_fetched_duplicates :
  let st := init props_twice in
  successful_load props_twice st (first_page_params props_twice) false
    {| error := VUndef; items := Some [mk_item 1 "a"; mk_item 1 "a"] |} ∧
  values (itemList (cells (getData props_twice (first_page_params props_twice)
                             false st))) = [VNum 1; VNum 1].
Proof. cbn zeta. split; [by repeat split|]. vm_compute. reflexivity. Qed.

(** C1: after a successful load the options list should hold no two
    entries with the same value.  The code breaks this on a server that
    repeats nothing: the component is mounted with the record 15 selected
    and labelled, the dropdown is opened and the list is scrolled to its
    bottom once.  The first page (records 1 to 10) lacks 15, so its entry
    is pinned in front; the second page (records 11 to 20) is appended with
    the record 15 in it, the test of line 83 finds the pinned entry, and 15
    stays listed twice.  All three loads are successful ones. *)
Theorem pinned_value_listed_twice :
  let r := session props_two_pages
             [VisibleChange doc_open true; Scroll at_bottom] in
  NoDup (map item_id (first_page_items ++ second_page_items)) ∧
  fetch_calls r.2 =
    [page_params props_two_pages 1; page_params props_two_pages 1;
     page_params props_two_pages 2] ∧
  toasts r.2 = [] ∧
  values (itemList r.1.2) =
    VNum 15
    :: map VNum [1; 2; 3; 4; 5; 6; 7; 8; 9; 10;
                 11; 12; 13; 14; 15; 16; 17; 18; 19; 20] ∧
  ¬ NoDup (values (itemList r.1.2)).
Proof.
  cbn zeta.
  assert (E : values (itemList
                (session props_two_pages
                   [VisibleChange doc_open true; Scroll at_bottom]).1.2) =
              VNum 15
              :: map VNum [1; 2; 3; 4; 5; 6; 7; 8; 9; 10;
                           11; 12; 13; 14; 15; 16; 17; 18; 19; 20])
    by (vm_compute; reflexivity).
  split_and!.
  - apply (bool_decide_unpack _). vm_compute. reflexivity.
  - vm_compute. reflexivity.
  - vm_compute. reflexivity.
  - exact E.
  - rewrite E. intros [Hfresh _]%NoDup_cons. apply Hfresh.
    apply (bool_decide_unpack _). vm_compute. reflexivity.
Qed.

(** ** C2, C3: the two kinds of failure *)

(** C2, as stated, fails: an error-flagged response empties the list like a
    rejected fetch does, but no notification is shown for it, while the
    rejected fetch shows one. *)
Lemma error_flag_and_rejection_differ :
  let ps := first_page_params props_error_flag in
  failed (fetchData props_error_flag ps) = true ∧
  failed (fetchData props_rejecting ps) = true ∧
  toasts (trace (getData props_error_flag ps false (init props_error_flag)))
    = [] ∧
  toasts (trace (getData props_rejecting ps false (init props_rejecting)))
    = [VStr "Network Error"].
Proof. vm_compute. by repeat split. Qed.

(** C2 (amended): a rejected fetch and an error-flagged response are handled
    alike in that the options list is emptied, [hasMore] and [totalItems]
    are reset and [fetchData] is called once only (no retry); the
    notification is shown for the rejected fetch, with the rejection as its
    payload, and not for the error-flagged response. *)
Theorem getData_failed (props : Props) (params : FetchParams)
    (isLoadMore : bool) (st : State) :
  proceeds st isLoadMore = true →
  failed (fetchData props params) = true →
  let r := getData props params isLoadMore st in
  itemList (cells r) = [] ∧
  hasMore (cells r) = false ∧
  totalItems (cells r) = 0 ∧
  fetch_calls (trace r) = [params] ∧
  toasts (trace r) =
    match fetchData props params with
    | Rejected reason => [reason]
    | Resolved _ => []
    end.
Proof.
  intros Hgo Hfail r. subst r.
  destruct (fetchData props params) as [res|reason] eqn:Hres; cbn in Hfail.
  - by rewrite (getData_resolved_error _ _ _ _ res Hgo Hres Hfail).
  - by rewrite (getData_rejected _ _ _ _ reason Hgo Hres).
Qed.

Lemma getData_failed_witness :
  let r := getData props_rejecting (first_page_params props_rejecting) false
             (init props_rejecting) in
  itemList (cells r) = [] ∧
  hasMore (cells r) = false ∧
  totalItems (cells r) = 0 ∧
  fetch_calls (trace r) = [first_page_params props_rejecting] ∧
  toasts (trace r) = [VStr "Network Error"].
Proof.
  apply (getData_failed props_rejecting (first_page_params props_rejecting)
           false (init props_rejecting)); reflexivity.
Defined.

(** C3: a load whose response carries a truthy [error] clears the list and
    sets [hasMore] to false, shows no toast and returns normally; a load
    whose fetch rejects clears the list and shows a toast, whose payload is
    the rejection. *)
Theorem getData_two_failure_kinds (props : Props) (params : FetchParams)
    (isLoadMore : bool) (st : State) :
  proceeds st isLoadMore = true →
  let r := getData props params isLoadMore st in
  (∀ res, fetchData props params = Resolved res → truthy (error res) = true →
     itemList (cells r) = [] ∧ hasMore (cells r) = false ∧
     toasts (trace r) = [] ∧ completion r = Returned tt) ∧
  (∀ reason, fetchData props params = Rejected reason →
     itemList (cells r) = [] ∧
     toasts (trace r) = [reason] ∧
     trace r = [EvFetch params (set_loading true st);
                EvMessage reason "el" "error"]).
Proof.
  intros Hgo r. subst r. split.
  - intros res Hres Herr.
    by rewrite (getData_resolved_error _ _ _ _ res Hgo Hres Herr).
  - intros reason Hres.
    by rewrite (getData_rejected _ _ _ _ reason Hgo Hres).
Qed.

Lemma getData_two_failure_kinds_witness :
  (let r := getData props_error_flag (first_page_params props_error_flag)
              false (init props_error_flag) in
   itemList (cells r) = [] ∧ hasMore (cells r) = false ∧
   toasts (trace r) = [] ∧ completion r = Returned tt) ∧
  (let r := getData props_rejecting (first_page_params props_rejecting)
              false (init props_rejecting) in
   itemList (cells r) = [] ∧ toasts (trace r) = [VStr "Network Error"]).
Proof.
  split.
  - apply (proj1 (getData_two_failure_kinds props_error_flag
                    (first_page_params props_error_flag) false
                    (init props_error_flag) eq_refl)
             {| error := VBool true; items := None |}); reflexivity.
  - destruct (proj2 (getData_two_failure_kinds props_rejecting
                       (first_page_params props_rejecting) false
                       (init props_rejecting) eq_refl)
                (VStr "Network Error") eq_refl) as (H1 & H2 & _).
    exact (conj H1 H2).
Defined.

(** ** C4: [hasMore] after a successful load *)

Lemma newItems_of_length (res : Response) :
  Z.of_nat (length (newItems_of res)) = returnedCount res.
Proof.
  unfold newItems_of, returnedCount.
  destruct (items res); cbn; [by rewrite length_map | done].
Qed.

Lemma prop_get_Some (obj : FetchParams) (key : string) (n : Z) :
  VNum n = prop_get obj key ↔ obj !! key = Some (VNum n).
Proof.
  unfold prop_get. destruct (obj !! key); cbn; split; congruence.
Qed.

(** C4: after a successful load, [hasMore] is true if and only if the
    parameter object's [MaxResultCount] is the number of items the fetch
    returned. *)
Theorem getData_hasMore_iff (props : Props) (params : FetchParams)
    (isLoadMore : bool) (st : State) (res : Response) :
  successful_load props st params isLoadMore res →
  hasMore (cells (getData props params isLoadMore st)) = true ↔
  params !! "MaxResultCount" = Some (VNum (returnedCount res)).
Proof.
  intros Hok. rewrite (getData_resolved_ok _ _ _ _ res Hok). cbn.
  rewrite newItems_of_length. unfold strict_eq.
  rewrite bool_decide_eq_true. apply prop_get_Some.
Qed.

Lemma getData_hasMore_iff_witness :
  hasMore (cells (getData props_ten (first_page_params props_ten) false
                    (init props_ten))) = true ↔
  first_page_params props_ten !! "MaxResultCount" = Some (VNum 10).
Proof.
  apply (getData_hasMore_iff props_ten (first_page_params props_ten) false
           (init props_ten) {| error := VUndef; items := Some ten_items |}).
  repeat split.
Defined.

(** ** C5: opening the dropdown *)

Lemma proceeds_replace (st : State) : proceeds st false = true.
Proof. unfold proceeds. by rewrite andb_false_r. Qed.

Lemma proceeds_hasMore (st : State) (isLoadMore : bool) :
  hasMore st = true → proceeds st isLoadMore = true.
Proof. unfold proceeds. by intros ->. Qed.

Lemma handleVisibleChange_open_run (props : Props) (document : Document)
    (st : State) :
  handleVisibleChange props document true st =
    (Returned tt,
     cells (getData props (first_page_params props) false (reset st)),
     trace (getData props (first_page_params props) false (reset st))
       ++ attach_events document).
Proof.
  unfold handleVisibleChange, attach_events.
  cbv [mbind M_bind modify mret M_ret emit].
  change (set_currentPage 1 (set_hasMore true (set_totalItems 0
            (set_itemList [] st)))) with (reset st).
  fold (first_page_params props).
  destruct (getData_proceeds props (first_page_params props) false (reset st)
              (proceeds_replace _)) as (st' & rest & -> & _).
  destruct (has_loadmore_wrap document); cbn; by rewrite ?app_nil_r.
Qed.

Lemma fetch_calls_app (t1 t2 : list Event) :
  fetch_calls (t1 ++ t2) = fetch_calls t1 ++ fetch_calls t2.
Proof. apply omap_app. Qed.

Lemma fetch_calls_fetch (params : FetchParams) (st : State) (t : list Event) :
  fetch_calls (EvFetch params st :: t) = params :: fetch_calls t.
Proof. reflexivity. Qed.

Lemma fetch_calls_attach (document : Document) :
  fetch_calls (attach_events document) = [].
Proof. unfold attach_events. by destruct (has_loadmore_wrap document). Qed.

(** C5: opening the dropdown calls [fetchData] once, with [param] extended
    by [skipCount: 1] and [MaxResultCount: 10] and no keyword of its own,
    and at that call the cells are already reset: [itemList] is empty,
    [currentPage] is 1 and [hasMore] is true.  The cells it ends in are those
    of a replacing load from the reset cells. *)
Theorem handleVisibleChange_open_resets_then_loads (props : Props)
    (document : Document) (st : State) :
  let r := handleVisibleChange props document true st in
  let params : FetchParams :=
    <["MaxResultCount" := VNum 10]> (<["skipCount" := VNum 1]> (param props)) in
  ∃ snapshot rest,
    trace r = EvFetch params snapshot :: rest ∧
    itemList snapshot = [] ∧ totalItems snapshot = 0 ∧
    currentPage snapshot = 1 ∧ hasMore snapshot = true ∧
    fetch_calls rest = [] ∧
    params !! "keyword" = param props !! "keyword" ∧
    cells r = cells (getData props params false (reset st)) ∧
    completion r = Returned tt.
Proof.
  cbn zeta. rewrite handleVisibleChange_open_run.
  fold (first_page_params props).
  destruct (getData_proceeds props (first_page_params props) false (reset st)
              (proceeds_replace _)) as (st' & rest & E & _ & _ & _ & Hrest).
  rewrite E. cbn.
  exists (set_loading true (reset st)), (rest ++ attach_events document).
  repeat split.
  - by rewrite fetch_calls_app, Hrest, fetch_calls_attach.
  - unfold first_page_params. by rewrite !lookup_insert_ne.
Qed.

(** ** C6: scrolling to the bottom *)

Lemma handleScroll_bottom_run (props : Props) (target : ScrollTarget)
    (st : State) :
  scrollHeight target = scrollTop target + clientHeight target →
  loading st = false → hasMore st = true →
  handleScroll props target st =
    getData props (page_params props (currentPage st + 1)) true
      (set_currentPage (currentPage st + 1) st).
Proof.
  intros Hb Hl Hm. unfold handleScroll, strict_eq.
  cbv [mbind M_bind modify mret M_ret get].
  rewrite Hb, Hl, Hm, bool_decide_eq_true_2 by done. cbn.
  fold (page_params props (currentPage st + 1)).
  destruct (getData_proceeds props (page_params props (currentPage st + 1))
              true (set_currentPage (currentPage st + 1) st))
    as (st' & rest & -> & _); [by apply proceeds_hasMore|done].
Qed.

Lemma first_page_MaxResultCount (props : Props) :
  prop_get (first_page_params props) "MaxResultCount" = VNum 10.
Proof. unfold prop_get, first_page_params. by rewrite lookup_insert_eq. Qed.

Lemma handleVisibleChange_full_page (props : Props) (document : Document)
    (st : State) (res : Response) :
  fetchData props (first_page_params props) = Resolved res →
  truthy (error res) = false →
  returnedCount res = 10 →
  let st1 := cells (handleVisibleChange props document true st) in
  loading st1 = false ∧ hasMore st1 = true ∧ currentPage st1 = 1.
Proof.
  intros Hres Herr Hten. cbn zeta.
  rewrite handleVisibleChange_open_run. unfold cells at 1 2 3; cbn [fst snd].
  rewrite (getData_resolved_ok _ _ _ _ res) by (by split; [apply proceeds_replace|]).
  cbn. by rewrite newItems_of_length, Hten, first_page_MaxResultCount.
Qed.

(** C6: when the wrapped scroll handler runs on a target that is at its
    bottom while [loading] is false and [hasMore] is true, [currentPage] is
    incremented and an appending load is issued: [fetchData] is called once,
    with the new page as [skipCount], and what it returns is placed after
    the entries already listed.  In particular, after the dropdown was
    opened and its first page came back with exactly ten items, the call
    carries [skipCount: 2]. *)
Theorem handleScroll_bottom_loads_next_page (props : Props)
    (target : ScrollTarget) :
  scrollHeight target = scrollTop target + clientHeight target →
  (∀ st, loading st = false → hasMore st = true →
     let r := handleScroll props target st in
     let params := page_params props (currentPage st + 1) in
     currentPage (cells r) = currentPage st + 1 ∧
     fetch_calls (trace r) = [params] ∧
     r = getData props params true (set_currentPage (currentPage st + 1) st) ∧
     ∀ res, fetchData props params = Resolved res →
            truthy (error res) = false →
            itemList (cells r) =
              with_pinned props st (itemList st ++ newItems_of res)) ∧
  (∀ document st res,
     fetchData props (first_page_params props) = Resolved res →
     truthy (error res) = false →
     returnedCount res = 10 →
     fetch_calls
       (trace (handleScroll props target
                 (cells (handleVisibleChange props document true st))))
       = [<["MaxResultCount" := VNum 10]>
            (<["skipCount" := VNum 2]> (param props))]).
Proof.
  intros Hb.
  assert (General : ∀ st, loading st = false → hasMore st = true →
     let r := handleScroll props target st in
     let params := page_params props (currentPage st + 1) in
     currentPage (cells r) = currentPage st + 1 ∧
     fetch_calls (trace r) = [params] ∧
     r = getData props params true (set_currentPage (currentPage st + 1) st) ∧
     ∀ res, fetchData props params = Resolved res →
            truthy (error res) = false →
            itemList (cells r) =
              with_pinned props st (itemList st ++ newItems_of res)).
  { intros st Hl Hm. cbn zeta.
    rewrite (handleScroll_bottom_run props target st Hb Hl Hm).
    set (st1 := set_currentPage (currentPage st + 1) st).
    assert (Hgo : proceeds st1 true = true) by by apply proceeds_hasMore.
    destruct (getData_proceeds props (page_params props (currentPage st + 1))
                true st1 Hgo) as (st' & rest & E & _ & _ & Hp & Hrest).
    repeat split.
    - rewrite E. exact Hp.
    - rewrite E. unfold trace. cbn [snd].
      by rewrite fetch_calls_fetch, Hrest.
    - intros res Hres Herr.
      by rewrite (getData_resolved_ok _ _ _ _ res). }
  split; [exact General|].
  intros document st res Hres Herr Hten.
  destruct (handleVisibleChange_full_page props document st res Hres Herr Hten)
    as (Hl & Hm & Hp).
  destruct (General _ Hl Hm) as (_ & Hcalls & _).
  rewrite Hcalls, Hp. reflexivity.
Qed.

Lemma handleScroll_bottom_loads_next_page_witness :
  fetch_calls
    (trace (handleScroll props_ten at_bottom
              (cells (handleVisibleChange props_ten doc_open true
                        (init props_ten)))))
    = [<["MaxResultCount" := VNum 10]> (<["skipCount" := VNum 2]> ∅)].
Proof.
  apply (proj2 (handleScroll_bottom_loads_next_page props_ten at_bottom
                  eq_refl)
           doc_open (init props_ten)
           {| error := VUndef; items := Some ten_items |});
    reflexivity.
Defined.

(** ** C7: the pinned entry *)

(** C7, as stated, fails for an appending load: the test of line 83 looks
    at the whole list, so when an entry already listed has the selected
    value, nothing is prepended although no fetched item has that value, and
    position 0 keeps its previous entry. *)
Lemma getData_append_does_not_pin_again :
  let params := page_params props_next_page 2 in
  let res := {| error := VUndef; items := Some [mk_item 3 "c"] |} in
  let r := getData props_next_page params true st_first_page in
  successful_load props_next_page st_first_page params true res ∧
  truthy (VStr (name props_next_page)) = true ∧
  truthy (modelValue props_next_page) = true ∧
  value st_first_page = modelValue props_next_page ∧
  (modelValue props_next_page ∉ values (newItems_of res)) ∧
  itemList (cells r) = [mk_option "a" 1; mk_option "b" 2; mk_option "c" 3] ∧
  head (itemList (cells r)) ≠
    Some {| opt_label := VStr (name props_next_page);
            opt_value := modelValue props_next_page |}.
Proof.
  cbn zeta. repeat split.
  - vm_compute. intros H. apply list_elem_of_singleton in H. discriminate.
  - vm_compute. discriminate.
Qed.

(** C7 (amended): after a successful load where [name] and the selected
    value (the cell [value], which mirrors [modelValue]) are both truthy and
    no entry of the list the fetched items were placed in (the fetched items
    alone when replacing, the previous entries followed by them when
    appending) has the selected value, [itemList] is that list with the
    pinned entry [{label: name, value}] prepended at position 0. *)
Theorem getData_prepends_pinned (props : Props) (params : FetchParams)
    (isLoadMore : bool) (st : State) (res : Response) :
  successful_load props st params isLoadMore res →
  truthy (VStr (name props)) = true →
  truthy (value st) = true →
  value st ∉ values (merged st isLoadMore res) →
  itemList (cells (getData props params isLoadMore st)) =
    {| opt_label := VStr (name props); opt_value := value st |}
    :: merged st isLoadMore res.
Proof.
  intros Hok Hn Hv Habs. rewrite (getData_resolved_ok _ _ _ _ res Hok). cbn.
  by apply with_pinned_absent.
Qed.

Lemma getData_prepends_pinned_witness :
  itemList (cells (getData props_selected (first_page_params props_selected)
                     false (init props_selected))) =
    [mk_option "g" 7; mk_option "a" 1; mk_option "b" 2].
Proof.
  apply (getData_prepends_pinned props_selected
           (first_page_params props_selected) false (init props_selected)
           {| error := VUndef; items := Some [mk_item 1 "a"; mk_item 2 "b"] |}).
  - repeat split.
  - reflexivity.
  - reflexivity.
  - apply (bool_decide_unpack _). vm_compute. reflexivity.
Defined.

(** ** C8: remote search *)

Lemma remoteSearch_run (props : Props) (query : string) (st : State) :
  remoteSearch props query st =
    getData props (search_params props query) false
      (set_hasMore true (set_currentPage 1 st)).
Proof.
  unfold remoteSearch, search_params, first_page_params, truthy.
  cbv [mbind M_bind modify].
  destruct (getData_proceeds props
              (<["MaxResultCount" := VNum 10]>
                 (<["skipCount" := VNum 1]> (param props)))
              false (set_hasMore true (set_currentPage 1 st))
              (proceeds_replace _)) as (s1 & t1 & E1 & _).
  destruct (getData_proceeds props
              (<["keyword" := VStr query]>
                 (<["MaxResultCount" := VNum 10]>
                    (<["skipCount" := VNum 1]> (param props))))
              false (set_hasMore true (set_currentPage 1 st))
              (proceeds_replace _)) as (s2 & t2 & E2 & _).
  destruct (decide (query = "")) as [->|Hne].
  - cbn. by rewrite E1.
  - apply String.eqb_neq in Hne. rewrite Hne. cbn. by rewrite E2.
Qed.

(** C8, as stated, fails for the empty query: line 116 tests the query, and
    for an empty one the load is issued without any [keyword]. *)
Lemma remoteSearch_empty_query_has_no_keyword :
  let props := props_ten in
  fetch_calls (trace (remoteSearch props "" (init props)))
    = [<["MaxResultCount" := VNum 10]> (<["skipCount" := VNum 1]> ∅)] ∧
  ∀ params, params ∈ fetch_calls (trace (remoteSearch props "" (init props))) →
            params !! "keyword" ≠ Some (VStr "").
Proof.
  cbn zeta.
  assert (E : fetch_calls (trace (remoteSearch props_ten "" (init props_ten)))
              = [<["MaxResultCount" := VNum 10]> (<["skipCount" := VNum 1]> ∅)])
    by (vm_compute; reflexivity).
  split; [exact E|]. intros params. rewrite E.
  intros ->%list_elem_of_singleton. vm_compute. discriminate.
Qed.

(** C8 (amended): a run of the search resets [currentPage] to 1 and
    [hasMore] to true before it calls [fetchData], calls it once, and
    [currentPage] is 1 afterwards.  For a non-empty query the parameters are
    [param] extended by [skipCount: 1], [MaxResultCount: 10] and
    [keyword: query]; for the empty query they are [param] extended by
    [skipCount: 1] and [MaxResultCount: 10] only. *)
Theorem remoteSearch_resets_then_loads (props : Props) (query : string)
    (st : State) :
  let r := remoteSearch props query st in
  let params : FetchParams :=
    if decide (query = "") then
      <["MaxResultCount" := VNum 10]> (<["skipCount" := VNum 1]> (param props))
    else
      <["keyword" := VStr query]>
        (<["MaxResultCount" := VNum 10]>
           (<["skipCount" := VNum 1]> (param props))) in
  ∃ snapshot rest,
    trace r = EvFetch params snapshot :: rest ∧
    currentPage snapshot = 1 ∧ hasMore snapshot = true ∧
    itemList snapshot = itemList st ∧
    fetch_calls rest = [] ∧
    currentPage (cells r) = 1 ∧
    r = getData props params false (set_hasMore true (set_currentPage 1 st)).
Proof.
  cbn zeta. rewrite remoteSearch_run.
  change (if decide (query = "") then _ else _)
    with (search_params props query).
  destruct (getData_proceeds props (search_params props query) false
              (set_hasMore true (set_currentPage 1 st)) (proceeds_replace _))
    as (st' & rest & E & _ & _ & Hp & Hrest).
  rewrite E. by eexists _, rest.
Qed.

(** ** C9: [getData] always returns, with [loading] reset *)

Lemma fetch_calls_nil_not_elem (t : list Event) (params : FetchParams)
    (st : State) :
  fetch_calls t = [] → EvFetch params st ∉ t.
Proof.
  intros Hnil Hin.
  assert (params ∈ fetch_calls t) as Hp.
  { unfold fetch_calls. apply list_elem_of_omap. by exists (EvFetch params st). }
  rewrite Hnil in Hp. by apply not_elem_of_nil in Hp.
Qed.

(** C9: [getData] never throws to its caller; when it gets past line 62,
    whatever [fetchData] answers (a response without error, an error-flagged
    response, a rejection), [loading] is false when it returns, and it was
    true at the call of [fetchData]. *)
Theorem getData_returns_with_loading_reset (props : Props)
    (params : FetchParams) (isLoadMore : bool) (st : State) :
  let r := getData props params isLoadMore st in
  completion r = Returned tt ∧
  (proceeds st isLoadMore = true → loading (cells r) = false) ∧
  (∀ ps snapshot, EvFetch ps snapshot ∈ trace r → loading snapshot = true).
Proof.
  cbn zeta. destruct (proceeds st isLoadMore) eqn:Hgo.
  - destruct (getData_proceeds props params isLoadMore st Hgo)
      as (st' & rest & E & Hl & _ & _ & Hrest).
    rewrite E. repeat split; [done|].
    intros ps snapshot [Heq|Hin]%elem_of_cons.
    + by injection Heq as -> ->.
    + by apply fetch_calls_nil_not_elem in Hin.
  - rewrite getData_skipped by done. repeat split; [done|].
    intros ps snapshot Hin. by apply not_elem_of_nil in Hin.
Qed.

Lemma getData_returns_with_loading_reset_witness :
  let r := getData props_rejecting (first_page_params props_rejecting) true
             (set_loading true (init props_rejecting)) in
  completion r = Returned tt ∧ loading (cells r) = false.
Proof.
  destruct (getData_returns_with_loading_reset props_rejecting
              (first_page_params props_rejecting) true
              (set_loading true (init props_rejecting))) as (H1 & H2 & _).
  exact (conj H1 (H2 eq_refl)).
Defined.

(** ** C10: an appending load when nothing is left *)

(** C10: [getData] called with [isLoadMore] true while [hasMore] is false
    does nothing: [fetchData] is not called, nothing else is done either,
    and every cell keeps its value. *)
Theorem getData_append_exhausted_noop (props : Props) (params : FetchParams)
    (st : State) :
  hasMore st = false →
  let r := getData props params true st in
  fetch_calls (trace r) = [] ∧ trace r = [] ∧ cells r = st ∧
  completion r = Returned tt.
Proof.
  intros Hm. cbn zeta. rewrite getData_skipped; [done|].
  unfold proceeds. by rewrite Hm.
Qed.

Lemma getData_append_exhausted_noop_witness :
  let st := set_hasMore false st_first_page in
  let r := getData props_next_page (page_params props_next_page 2) true st in
  fetch_calls (trace r) = [] ∧ trace r = [] ∧ cells r = st ∧
  completion r = Returned tt.
Proof.
  apply (getData_append_exhausted_noop props_next_page
           (page_params props_next_page 2)
           (set_hasMore false st_first_page)).
  reflexivity.
Defined.

(** * Further properties of the handlers *)

(** ** What every run of [getData] has in common *)

Lemma getData_summary (props : Props) (params : FetchParams)
    (isLoadMore : bool) (st : State) :
  ∃ st' t,
    getData props params isLoadMore st = (Returned tt, st', t) ∧
    value st' = value st ∧ currentPage st' = currentPage st ∧
    totalItems st' = (if proceeds st isLoadMore
                      then Z.of_nat (length (itemList st'))
                      else totalItems st) ∧
    loading st' = (if proceeds st isLoadMore then false else loading st) ∧
    t = (if proceeds st isLoadMore
         then EvFetch params (set_loading true st)
              :: match fetchData props params with
                 | Rejected reason => [EvMessage reason "el" "error"]
                 | Resolved _ => []
                 end
         else []).
Proof.
  destruct (proceeds st isLoadMore) eqn:Hgo.
  - destruct (fetchData props params) as [res|reason] eqn:Hres.
    + destruct (truthy (error res)) eqn:Herr.
      * rewrite (getData_resolved_error _ _ _ _ res) by done.
        by eexists _, _.
      * rewrite (getData_resolved_ok _ _ _ _ res) by done.
        by eexists _, _.
    + rewrite (getData_rejected _ _ _ _ reason) by done.
      by eexists _, _.
  - rewrite getData_skipped by done. by eexists _, _.
Qed.

Lemma strict_eq_refl (v : JSVal) : strict_eq v v = true.
Proof. unfold strict_eq. by apply bool_decide_eq_true_2. Qed.

Lemma with_pinned_value_only (props : Props) (st1 st2 : State)
    (l : list SelectOption) :
  value st1 = value st2 → with_pinned props st1 l = with_pinned props st2 l.
Proof. unfold with_pinned, pinned_entry. by intros ->. Qed.

Lemma with_pinned_idempotent (props : Props) (st : State)
    (l : list SelectOption) :
  with_pinned props st (with_pinned props st l) = with_pinned props st l.
Proof.
  destruct (truthy (VStr (name props)) && truthy (value st)) eqn:Hboth.
  - destruct (find (λ item, strict_eq (opt_value item) (value st)) l) eqn:E.
    + assert (with_pinned props st l = l) as Hl
        by (unfold with_pinned; by rewrite Hboth, E).
      by rewrite !Hl.
    + assert (with_pinned props st l = pinned_entry props st :: l) as ->
        by (unfold with_pinned; by rewrite Hboth, E).
      apply with_pinned_present. unfold values, pinned_entry. cbn. by left.
  - assert (with_pinned props st l = l) as Hl
      by (unfold with_pinned; by rewrite Hboth).
    by rewrite !Hl.
Qed.

(** ** The [name] watcher *)

(** X1: when the new [name] is non-empty, a value is selected and no entry
    has it, the watcher puts the entry [{label: name, value}] in front of
    the list.  It does nothing else: no call of [fetchData], and
    [totalItems] keeps the count it had, one short of the list now. *)
Theorem watch_name_pins_missing_value (newVal : string) (st : State) :
  truthy (VStr newVal) = true →
  truthy (value st) = true →
  value st ∉ values (itemList st) →
  let r := watch_name newVal st in
  itemList (cells r) =
    {| opt_label := VStr newVal; opt_value := value st |} :: itemList st ∧
  totalItems (cells r) = totalItems st ∧
  (value (cells r), loading (cells r), currentPage (cells r), hasMore (cells r))
    = (value st, loading st, currentPage st, hasMore st) ∧
  trace r = [] ∧ completion r = Returned tt.
Proof.
  intros Hn Hv Habs. cbn zeta.
  set (props := {| fetchData := λ _, Rejected VUndef; modelValue := VUndef;
                   name := newVal; param := ∅ |}).
  pose proof (watch_name_run props st) as E.
  change (name props) with newVal in E. rewrite E.
  rewrite (with_pinned_absent props st (itemList st) Hn Hv Habs).
  by repeat split.
Qed.

Lemma watch_name_pins_missing_value_witness :
  itemList (cells (watch_name "g" (set_value (VNum 7) st_first_page))) =
    [mk_option "g" 7; mk_option "a" 1; mk_option "b" 2] ∧
  totalItems (cells (watch_name "g" (set_value (VNum 7) st_first_page))) = 2.
Proof.
  destruct (watch_name_pins_missing_value "g"
              (set_value (VNum 7) st_first_page) eq_refl eq_refl)
    as (H1 & H2 & _).
  - apply (bool_decide_unpack _). vm_compute. reflexivity.
  - exact (conj H1 H2).
Defined.

(** X2: when the new [name] is empty, or no value is selected (the cell is
    [''], [0], [null] or [undefined]), or an entry already has the selected
    value, the watcher changes nothing and does nothing. *)
Theorem watch_name_leaves_list (newVal : string) (st : State) :
  truthy (VStr newVal) = false ∨ truthy (value st) = false ∨
    value st ∈ values (itemList st) →
  watch_name newVal st = (Returned tt, st, []).
Proof.
  intros Hcase.
  set (props := {| fetchData := λ _, Rejected VUndef; modelValue := VUndef;
                   name := newVal; param := ∅ |}).
  pose proof (watch_name_run props st) as E.
  change (name props) with newVal in E. rewrite E.
  assert (with_pinned props st (itemList st) = itemList st) as ->.
  { destruct Hcase as [Hn|[Hv|Hin]].
    - unfold with_pinned. change (name props) with newVal. by rewrite Hn.
    - unfold with_pinned. by rewrite Hv, andb_false_r.
    - by apply with_pinned_present. }
  by destruct st.
Qed.

Lemma watch_name_leaves_list_witness :
  watch_name "b" st_first_page = (Returned tt, st_first_page, []).
Proof.
  apply (watch_name_leaves_list "b" st_first_page).
  right; right. apply (bool_decide_unpack _). vm_compute. reflexivity.
Defined.

(** X3: the watcher is idempotent: run again with the same [name] on the
    cells it left, it changes nothing more, so a label is never pinned
    twice. *)
Theorem watch_name_idempotent (newVal : string) (st : State) :
  watch_name newVal (cells (watch_name newVal st)) =
    (Returned tt, cells (watch_name newVal st), []).
Proof.
  set (props := {| fetchData := λ _, Rejected VUndef; modelValue := VUndef;
                   name := newVal; param := ∅ |}).
  assert (E : ∀ s, watch_name newVal s =
            (Returned tt, set_itemList (with_pinned props s (itemList s)) s, []))
    by (intros s; apply (watch_name_run props s)).
  rewrite !E. cbn.
  rewrite (with_pinned_value_only props
             (set_itemList (with_pinned props st (itemList st)) st) st) by done.
  by rewrite with_pinned_idempotent.
Qed.

(** ** What a load keeps and what it lists *)

(** X4: a load never changes the selected value nor the page counter,
    whatever [fetchData] answers.  In particular the counter is not taken
    back when the load of the next page fails. *)
Theorem getData_keeps_value_and_page (props : Props) (params : FetchParams)
    (isLoadMore : bool) (st : State) :
  value (cells (getData props params isLoadMore st)) = value st ∧
  currentPage (cells (getData props params isLoadMore st)) = currentPage st.
Proof.
  destruct (getData_summary props params isLoadMore st)
    as (st' & t & -> & Hv & Hp & _).
  by split.
Qed.

(** X5: after a load that got past line 62, [totalItems] is the length of
    [itemList], whether the load succeeded, came back error-flagged or was
    rejected. *)
Theorem getData_totalItems_is_length (props : Props) (params : FetchParams)
    (isLoadMore : bool) (st : State) :
  proceeds st isLoadMore = true →
  totalItems (cells (getData props params isLoadMore st)) =
    Z.of_nat (length (itemList (cells (getData props params isLoadMore st)))).
Proof.
  intros Hgo.
  destruct (getData_summary props params isLoadMore st)
    as (st' & t & -> & _ & _ & Ht & _).
  by rewrite Hgo in Ht.
Qed.

Lemma getData_totalItems_is_length_witness :
  totalItems (cells (getData props_selected (first_page_params props_selected)
                       false (init props_selected))) =
    Z.of_nat (length (itemList (cells (getData props_selected
                                         (first_page_params props_selected)
                                         false (init props_selected))))).
Proof.
  apply (getData_totalItems_is_length props_selected
           (first_page_params props_selected) false (init props_selected)).
  reflexivity.
Defined.

(** X6: a successful appending load keeps every previous entry, in place
    and in order, and lists the fetched items after them in the order of
    the response, each with [name] as label and [id] as value; the only
    entry that can come in front is the pinned one. *)
Theorem getData_append_keeps_entries (props : Props) (params : FetchParams)
    (st : State) (res : Response) :
  successful_load props st params true res →
  ∃ front,
    itemList (cells (getData props params true st)) =
      front ++ itemList st
        ++ map (λ item, {| opt_label := item_name item;
                           opt_value := item_id item |})
             (default [] (items res)) ∧
    (front = [] ∨
     front = [{| opt_label := VStr (name props); opt_value := value st |}]).
Proof.
  intros Hok. rewrite (getData_resolved_ok _ _ _ _ res Hok). cbn.
  assert (newItems_of res =
          map (λ item, {| opt_label := item_name item;
                          opt_value := item_id item |})
            (default [] (items res))) as <-
    by (unfold newItems_of; by destruct (items res)).
  unfold with_pinned.
  destruct (truthy (VStr (name props)) && truthy (value st));
    [|exists []; by split; [|left]].
  destruct (find _ _);
    [exists []; by split; [|left] | eexists [_]; by split; [|right]].
Qed.

Lemma getData_append_keeps_entries_witness :
  ∃ front,
    itemList (cells (getData props_next_page (page_params props_next_page 2)
                       true st_first_page)) =
      front ++ itemList st_first_page ++ [mk_option "c" 3] ∧
    (front = [] ∨ front = [mk_option "b" 2]).
Proof.
  apply (getData_append_keeps_entries props_next_page
           (page_params props_next_page 2) st_first_page
           {| error := VUndef; items := Some [mk_item 3 "c"] |}).
  repeat split.
Defined.

(** X7: after a successful load with [name] non-empty and a value selected,
    some entry of [itemList] has the selected value (the pinned one, or one
    that was listed anyway). *)
Theorem getData_selected_value_listed (props : Props) (params : FetchParams)
    (isLoadMore : bool) (st : State) (res : Response) :
  successful_load props st params isLoadMore res →
  truthy (VStr (name props)) = true →
  truthy (value st) = true →
  value st ∈ values (itemList (cells (getData props params isLoadMore st))).
Proof.
  intros Hok Hn Hv. rewrite (getData_resolved_ok _ _ _ _ res Hok). cbn.
  destruct (decide (value st ∈ values (merged st isLoadMore res))) as [Hin|Hout].
  - by rewrite with_pinned_present.
  - rewrite with_pinned_absent by done. cbn. by left.
Qed.

Lemma getData_selected_value_listed_witness :
  VNum 2 ∈ values (itemList (cells (getData props_next_page
                                      (page_params props_next_page 2) true
                                      st_first_page))).
Proof.
  apply (getData_selected_value_listed props_next_page
           (page_params props_next_page 2) true st_first_page
           {| error := VUndef; items := Some [mk_item 3 "c"] |});
    [repeat split | reflexivity | reflexivity].
Defined.

(** X8: after a successful load, nothing is pinned when [name] is empty, or
    when no value is selected (so never for the selected value [0]), or when
    an entry already has the selected value: [itemList] is then the fetched
    entries, after the previous entries when appending. *)
Theorem getData_pins_nothing (props : Props) (params : FetchParams)
    (isLoadMore : bool) (st : State) (res : Response) :
  successful_load props st params isLoadMore res →
  truthy (VStr (name props)) = false ∨ truthy (value st) = false ∨
    value st ∈ values (merged st isLoadMore res) →
  itemList (cells (getData props params isLoadMore st)) =
    (if isLoadMore then itemList st else []) ++ newItems_of res.
Proof.
  intros Hok Hcase. rewrite (getData_resolved_ok _ _ _ _ res Hok). cbn.
  assert (with_pinned props st (merged st isLoadMore res)
          = merged st isLoadMore res) as ->.
  { destruct Hcase as [Hn|[Hv|Hin]].
    - unfold with_pinned. by rewrite Hn.
    - unfold with_pinned. by rewrite Hv, andb_false_r.
    - by apply with_pinned_present. }
  unfold merged. by destruct isLoadMore.
Qed.

Lemma getData_pins_nothing_witness :
  let props := props_answering (page_of [mk_item 1 "a"]) (VNum 0) "zero" in
  itemList (cells (getData props (first_page_params props) false (init props)))
    = [mk_option "a" 1].
Proof.
  apply (getData_pins_nothing
           (props_answering (page_of [mk_item 1 "a"]) (VNum 0) "zero")
           (first_page_params
              (props_answering (page_of [mk_item 1 "a"]) (VNum 0) "zero"))
           false
           (init (props_answering (page_of [mk_item 1 "a"]) (VNum 0) "zero"))
           {| error := VUndef; items := Some [mk_item 1 "a"] |}).
  - repeat split.
  - right; left. reflexivity.
Defined.

(** X9: a response that is not error-flagged and has no [items] is read as
    an empty page: a replacing load leaves the pinned entry alone in the
    list, or nothing, an appending load keeps the list as the pin step
    leaves it, and [hasMore] becomes false for every page size but 0. *)
Theorem getData_items_absent (props : Props) (params : FetchParams)
    (isLoadMore : bool) (st : State) (res : Response) :
  successful_load props st params isLoadMore res →
  items res = None →
  let r := getData props params isLoadMore st in
  itemList (cells r) =
    with_pinned props st (if isLoadMore then itemList st else []) ∧
  (params !! "MaxResultCount" ≠ Some (VNum 0) → hasMore (cells r) = false).
Proof.
  intros Hok Hnone. cbn zeta.
  rewrite (getData_resolved_ok _ _ _ _ res Hok). cbn.
  unfold merged, newItems_of. rewrite Hnone. cbn. split.
  - destruct isLoadMore; by rewrite ?app_nil_r.
  - intros Hps. unfold strict_eq. apply bool_decide_eq_false_2.
    intros Heq. by apply prop_get_Some in Heq.
Qed.

Lemma getData_items_absent_witness :
  let props := props_answering (Resolved {| error := VNum 0; items := None |})
                 (VNum 7) "g" in
  let r := getData props (first_page_params props) false (init props) in
  itemList (cells r) = [mk_option "g" 7] ∧ hasMore (cells r) = false.
Proof.
  destruct (getData_items_absent
              (props_answering (Resolved {| error := VNum 0; items := None |})
                 (VNum 7) "g")
              (first_page_params
                 (props_answering
                    (Resolved {| error := VNum 0; items := None |})
                    (VNum 7) "g"))
              false
              (init (props_answering
                       (Resolved {| error := VNum 0; items := None |})
                       (VNum 7) "g"))
              {| error := VNum 0; items := None |})
    as (H1 & H2); [repeat split | reflexivity |].
  split; [exact H1 | apply H2; vm_compute; discriminate].
Defined.

(** ** The handlers around [getData] *)

Lemma handleScroll_not_triggered (props : Props) (target : ScrollTarget)
    (st : State) :
  scrollHeight target ≠ scrollTop target + clientHeight target ∨
    loading st = true ∨ hasMore st = false →
  handleScroll props target st = (Returned tt, st, []).
Proof.
  intros Hcase. unfold handleScroll, strict_eq.
  cbv [mbind M_bind get mret M_ret].
  destruct Hcase as [Hb|[Hl|Hm]].
  - rewrite bool_decide_eq_false_2; [done|]. intros Heq. by injection Heq.
  - rewrite Hl. by rewrite andb_false_r.
  - rewrite Hm. by rewrite andb_false_r.
Qed.

(** X10: the wrapped scroll handler does nothing at all (no page
    increment, no call of [fetchData], no cell changed) when the target is
    not exactly at its bottom, or a load is in flight, or [hasMore] is
    false. *)
Theorem handleScroll_idle (props : Props) (target : ScrollTarget)
    (st : State) :
  scrollHeight target ≠ scrollTop target + clientHeight target ∨
    loading st = true ∨ hasMore st = false →
  let r := handleScroll props target st in
  cells r = st ∧ trace r = [] ∧ completion r = Returned tt.
Proof.
  intros Hcase. cbn zeta. by rewrite handleScroll_not_triggered.
Qed.

Lemma handleScroll_idle_witness :
  let r := handleScroll props_ten
             {| scrollHeight := 500; scrollTop := 225; clientHeight := 274 |}
             (init props_ten) in
  cells r = init props_ten ∧ trace r = [] ∧ completion r = Returned tt.
Proof.
  apply (handleScroll_idle props_ten
           {| scrollHeight := 500; scrollTop := 225; clientHeight := 274 |}
           (init props_ten)).
  left. vm_compute. discriminate.
Defined.

(** X11: closing the dropdown changes no cell, calls neither [fetchData]
    nor the toast utility, and removes the scroll listener from the element
    matching [.el-select-dropdown] when there is one.  That is never the
    selector under which opening the dropdown registered the listener. *)
Theorem handleVisibleChange_close (props : Props) (document : Document)
    (st : State) :
  let r := handleVisibleChange props document false st in
  cells r = st ∧ completion r = Returned tt ∧
  trace r = (if has_dropdown document
             then [EvRemoveScrollListener ".el-select-dropdown"] else []) ∧
  ∀ document' st' selector,
    EvAddScrollListener selector
      ∈ trace (handleVisibleChange props document' true st') →
    EvRemoveScrollListener selector ∉ trace r.
Proof.
  cbn zeta.
  assert (E : handleVisibleChange props document false st =
              (Returned tt, st,
               if has_dropdown document
               then [EvRemoveScrollListener ".el-select-dropdown"] else []))
    by (unfold handleVisibleChange, emit; cbv [mret M_ret];
        by destruct (has_dropdown document)).
  rewrite E. repeat split.
  intros document' st' selector Hadd Hrem.
  rewrite handleVisibleChange_open_run in Hadd.
  destruct (getData_summary props (first_page_params props) false (reset st'))
    as (s1 & t1 & E1 & _ & _ & _ & _ & Ht).
  rewrite E1 in Hadd. cbn in Hadd. rewrite Ht, proceeds_replace in Hadd.
  assert (selector = ".myselect-loadmore .el-select-dropdown__wrap") as ->.
  { unfold attach_events in Hadd.
    destruct (fetchData props (first_page_params props));
      destruct (has_loadmore_wrap document');
      repeat (apply elem_of_cons in Hadd as [Hadd|Hadd]; [congruence|]);
      by apply not_elem_of_nil in Hadd. }
  cbn in Hrem. destruct (has_dropdown document).
  - apply list_elem_of_singleton in Hrem. discriminate.
  - by apply not_elem_of_nil in Hrem.
Qed.

(** X12: opening the dropdown forgets what was listed before: the cells it
    ends in depend on the previous cells only through the selected value. *)
Theorem handleVisibleChange_open_forgets (props : Props)
    (document : Document) (st1 st2 : State) :
  value st1 = value st2 →
  cells (handleVisibleChange props document true st1) =
  cells (handleVisibleChange props document true st2).
Proof.
  intros Hv. rewrite !handleVisibleChange_open_run. unfold cells at 1 3.
  cbn [fst snd].
  destruct (fetchData props (first_page_params props)) as [res|reason] eqn:Hres.
  - destruct (truthy (error res)) eqn:Herr.
    + rewrite !(getData_resolved_error _ _ _ _ res)
        by (done || apply proceeds_replace).
      unfold cleared; cbn; by rewrite Hv.
    + rewrite !(getData_resolved_ok _ _ _ _ res)
        by (by split; [apply proceeds_replace|]).
      cbn. unfold merged.
      rewrite (with_pinned_value_only props (reset st1) (reset st2)) by done.
      by rewrite Hv.
  - rewrite !(getData_rejected _ _ _ _ reason)
      by (done || apply proceeds_replace).
    unfold cleared; cbn; by rewrite Hv.
Qed.

Lemma handleVisibleChange_open_forgets_witness :
  cells (handleVisibleChange props_next_page doc_open true st_first_page) =
  cells (handleVisibleChange props_next_page doc_open true
           (init props_next_page)).
Proof.
  apply (handleVisibleChange_open_forgets props_next_page doc_open
           st_first_page (init props_next_page)).
  reflexivity.
Defined.

(** X13: a search forgets what was listed before in the same way, although
    it leaves the previous list in place until [fetchData] has answered. *)
Theorem remoteSearch_forgets (props : Props) (query : string)
    (st1 st2 : State) :
  value st1 = value st2 →
  cells (remoteSearch props query st1) = cells (remoteSearch props query st2).
Proof.
  intros Hv. rewrite !remoteSearch_run.
  destruct (fetchData props (search_params props query))
    as [res|reason] eqn:Hres.
  - destruct (truthy (error res)) eqn:Herr.
    + rewrite !(getData_resolved_error _ _ _ _ res)
        by (done || apply proceeds_replace).
      unfold cleared; cbn; by rewrite Hv.
    + rewrite !(getData_resolved_ok _ _ _ _ res)
        by (by split; [apply proceeds_replace|]).
      cbn. unfold merged.
      rewrite (with_pinned_value_only props
                 (set_hasMore true (set_currentPage 1 st1))
                 (set_hasMore true (set_currentPage 1 st2))) by done.
      by rewrite Hv.
  - rewrite !(getData_rejected _ _ _ _ reason)
      by (done || apply proceeds_replace).
    unfold cleared; cbn; by rewrite Hv.
Qed.

Lemma remoteSearch_forgets_witness :
  cells (remoteSearch props_next_page "c" st_first_page) =
  cells (remoteSearch props_next_page "c" (init props_next_page)).
Proof.
  apply (remoteSearch_forgets props_next_page "c" st_first_page
           (init props_next_page)).
  reflexivity.
Defined.

Lemma handleScroll_fetch_calls (props : Props) (target : ScrollTarget)
    (st : State) (params : FetchParams) :
  params ∈ fetch_calls (trace (handleScroll props target st)) →
  params = page_params props (currentPage st + 1).
Proof.
  destruct (decide (scrollHeight target = scrollTop target + clientHeight target))
    as [Hb|Hb];
    [destruct (loading st) eqn:Hl; [|destruct (hasMore st) eqn:Hm]|].
  - rewrite handleScroll_not_triggered by auto. intros H. by apply not_elem_of_nil in H.
  - rewrite handleScroll_bottom_run by done.
    destruct (getData_summary props (page_params props (currentPage st + 1))
                true (set_currentPage (currentPage st + 1) st))
      as (s1 & t1 & -> & _ & _ & _ & _ & ->).
    rewrite proceeds_hasMore by done. cbn.
    destruct (fetchData props _); cbn;
      by intros ->%list_elem_of_singleton.
  - rewrite handleScroll_not_triggered by auto. intros H. by apply not_elem_of_nil in H.
  - rewrite handleScroll_not_triggered by auto. intros H. by apply not_elem_of_nil in H.
Qed.

(** X14: a load issued by scrolling never carries the query of a search:
    its [keyword] is the one of [param], if any, whatever was searched
    before.  After a search, scrolling therefore asks for the next page of
    the unfiltered list. *)
Theorem handleScroll_sends_no_search_keyword (props : Props)
    (target : ScrollTarget) (query : string) (st : State)
    (params : FetchParams) :
  params ∈ fetch_calls
             (trace (handleScroll props target
                       (cells (remoteSearch props query st)))) →
  params !! "keyword" = param props !! "keyword" ∧
  params !! "skipCount" = Some (VNum 2).
Proof.
  intros ->%handleScroll_fetch_calls.
  rewrite remoteSearch_run.
  destruct (getData_summary props (search_params props query) false
              (set_hasMore true (set_currentPage 1 st)))
    as (s1 & t1 & -> & _ & Hp & _).
  cbn. rewrite Hp. cbn. unfold page_params.
  split; [by rewrite !lookup_insert_ne|].
  by rewrite lookup_insert_ne, lookup_insert_eq.
Qed.

Lemma handleScroll_sends_no_search_keyword_witness :
  let after_search := cells (remoteSearch props_ten "abc" (init props_ten)) in
  page_params props_ten 2
    ∈ fetch_calls (trace (handleScroll props_ten at_bottom after_search)) ∧
  page_params props_ten 2 !! "keyword" = None ∧
  page_params props_ten 2 !! "skipCount" = Some (VNum 2).
Proof.
  assert (H : page_params props_ten 2
              ∈ fetch_calls (trace (handleScroll props_ten at_bottom
                   (cells (remoteSearch props_ten "abc" (init props_ten))))))
    by (apply (bool_decide_unpack _); vm_compute; reflexivity).
  split; [exact H|].
  exact (handleScroll_sends_no_search_keyword props_ten at_bottom "abc"
           (init props_ten) (page_params props_ten 2) H).
Defined.

(** ** Every handler, and whole sessions *)

Lemma watch_name_cells (newVal : string) (st : State) :
  ∃ l, watch_name newVal st = (Returned tt, set_itemList l st, []).
Proof.
  pose proof (watch_name_run
                {| fetchData := λ _, Rejected VUndef; modelValue := VUndef;
                   name := newVal; param := ∅ |} st) as E.
  cbn [name] in E. by eexists.
Qed.

Lemma toasts_app (t1 t2 : list Event) :
  toasts (t1 ++ t2) = toasts t1 ++ toasts t2.
Proof. apply omap_app. Qed.

(** Lookups in a parameter object built by successive inserts. *)
Ltac lookup_params :=
  repeat first [ rewrite lookup_insert_eq
               | rewrite lookup_insert_ne by done ];
  done.

(** A handler run either involves no load at all, or is one load that got
    past line 62 followed by effects on the document. *)
Lemma handler_cases (props : Props) (a : Action) (st : State) :
  (∃ st' t,
     handler props a st = (Returned tt, st', t) ∧
     fetch_calls t = [] ∧ toasts t = [] ∧
     currentPage st' = currentPage st ∧ loading st' = loading st ∧
     totalItems st' = totalItems st ∧
     ((∀ n, a ≠ NameChanged n) → itemList st' = itemList st)) ∨
  (∃ params isLoadMore s0 tail,
     handler props a st =
       (Returned tt, cells (getData props params isLoadMore s0),
        trace (getData props params isLoadMore s0) ++ tail) ∧
     proceeds s0 isLoadMore = true ∧
     fetch_calls tail = [] ∧ toasts tail = [] ∧
     params !! "MaxResultCount" = Some (VNum 10) ∧
     params !! "skipCount" = Some (VNum (currentPage s0)) ∧
     (1 ≤ currentPage st → 1 ≤ currentPage s0) ∧
     (∀ k, k ∉ own_keys → params !! k = param props !! k) ∧
     (params !! "keyword" = param props !! "keyword" ∨
      ∃ query, a = Search query ∧ query ≠ "" ∧
               params !! "keyword" = Some (VStr query))).
Proof.
  assert (Hkeys : ∀ k, k ∉ own_keys →
            k ≠ "skipCount" ∧ k ≠ "MaxResultCount" ∧ k ≠ "keyword").
  { intros k Hk. unfold own_keys in Hk.
    repeat split; intros ->; apply Hk; set_solver. }
  destruct a as [query|target|document visible|newVal|newVal|newParam|val];
    cbn [handler].
  - right. exists (search_params props query), false,
             (set_hasMore true (set_currentPage 1 st)), [].
    rewrite remoteSearch_run, app_nil_r.
    destruct (getData_summary props (search_params props query) false
                (set_hasMore true (set_currentPage 1 st)))
      as (s1 & t1 & -> & _).
    unfold search_params, first_page_params.
    repeat split; try done.
    + destruct (decide (query = "")); lookup_params.
    + destruct (decide (query = "")); lookup_params.
    + intros k (? & ? & ?)%Hkeys.
      destruct (decide (query = "")); lookup_params.
    + destruct (decide (query = "")); [left; lookup_params|].
      right. exists query. repeat split; [done|]. lookup_params.
  - destruct (decide (scrollHeight target
                      = scrollTop target + clientHeight target)) as [Hb|Hb];
      [destruct (loading st) eqn:Hl; [|destruct (hasMore st) eqn:Hm]|].
    + left. rewrite handleScroll_not_triggered by auto. by eexists _, _.
    + right. exists (page_params props (currentPage st + 1)), true,
               (set_currentPage (currentPage st + 1) st), [].
      rewrite handleScroll_bottom_run, app_nil_r by done.
      destruct (getData_summary props (page_params props (currentPage st + 1))
                  true (set_currentPage (currentPage st + 1) st))
        as (s1 & t1 & -> & _).
      unfold page_params. repeat split; try done.
      * by apply proceeds_hasMore.
      * lookup_params.
      * lookup_params.
      * cbn. lia.
      * intros k (? & ? & ?)%Hkeys. lookup_params.
      * left. lookup_params.
    + left. rewrite handleScroll_not_triggered by auto. by eexists _, _.
    + left. rewrite handleScroll_not_triggered by auto. by eexists _, _.
  - destruct visible.
    + right. exists (first_page_params props), false, (reset st),
               (attach_events document).
      rewrite handleVisibleChange_open_run.
      unfold first_page_params. repeat split; try done.
      * apply fetch_calls_attach.
      * unfold attach_events. by destruct (has_loadmore_wrap document).
      * lookup_params.
      * lookup_params.
      * intros k (? & ? & ?)%Hkeys. lookup_params.
      * left. lookup_params.
    + left. unfold handleVisibleChange, emit. cbv [mret M_ret].
      destruct (has_dropdown document); by eexists _, _.
  - left. by eexists _, _.
  - left. destruct (watch_name_cells newVal st) as (l & ->).
    eexists _, _. repeat split. intros Hne. by destruct (Hne newVal).
  - left. by eexists _, _.
  - left. by eexists _, _.
Qed.

Lemma trace_triple {A : Type} (c : Completion A) (st : State)
    (t : list Event) :
  trace (c, st, t) = t.
Proof. reflexivity. Qed.

Lemma cells_triple {A : Type} (c : Completion A) (st : State)
    (t : list Event) :
  cells (c, st, t) = st.
Proof. reflexivity. Qed.

Lemma getData_proceeds_trace (props : Props) (params : FetchParams)
    (isLoadMore : bool) (st : State) :
  proceeds st isLoadMore = true →
  let t := trace (getData props params isLoadMore st) in
  fetch_calls t = [params] ∧
  toasts t = match fetchData props params with
             | Rejected reason => [reason]
             | Resolved _ => []
             end ∧
  ∀ ps snapshot, EvFetch ps snapshot ∈ t →
                 ps = params ∧ snapshot = set_loading true st.
Proof.
  intros Hgo. cbn zeta.
  destruct (getData_summary props params isLoadMore st)
    as (st' & t & -> & _ & _ & _ & _ & ->).
  rewrite Hgo. cbn.
  destruct (fetchData props params); cbn; (split; [done|split; [done|]]);
    intros ps snapshot Hin;
    (apply elem_of_cons in Hin as [Hin|Hin]; [by injection Hin as -> ->|]);
    repeat (apply elem_of_cons in Hin as [Hin|Hin]; [congruence|]);
    by apply not_elem_of_nil in Hin.
Qed.

(** X15: no handler throws: whatever [fetchData] answers, every handler
    returns normally to the toolkit. *)
Theorem handler_returns (props : Props) (a : Action) (st : State) :
  completion (handler props a st) = Returned tt.
Proof.
  destruct (handler_cases props a st)
    as [(st' & t & -> & _)|(params & isLoadMore & s0 & tail & -> & _)]; done.
Qed.

(** X16: a handler calls [fetchData] at most once and shows at most one
    toast, and never a toast in a run without a call.  When the call is
    rejected, the toast carries the rejection; when it resolves with a
    response of the fetch contract, error-flagged or not, no toast is
    shown. *)
Theorem handler_fetches_once_toasts_once (props : Props) (a : Action)
    (st : State) :
  let t := trace (handler props a st) in
  (length (fetch_calls t) ≤ 1)%nat ∧
  (length (toasts t) ≤ length (fetch_calls t))%nat ∧
  (∀ params reason,
     params ∈ fetch_calls t → fetchData props params = Rejected reason →
     toasts t = [reason]) ∧
  (∀ params res,
     params ∈ fetch_calls t → fetchData props params = Resolved res →
     toasts t = []).
Proof.
  cbn zeta.
  destruct (handler_cases props a st)
    as [(st' & t & -> & Hf & Ht & _)
       |(params & isLoadMore & s0 & tail & -> & Hgo & Hf & Ht & _)].
  - unfold trace. cbn [snd]. rewrite Hf, Ht.
    split_and!; [cbn; lia..| |];
      intros ? ? Hin; by apply not_elem_of_nil in Hin.
  - rewrite !trace_triple.
    destruct (getData_proceeds_trace props params isLoadMore s0 Hgo)
      as (Hcalls & Htoasts & _).
    rewrite fetch_calls_app, toasts_app, Hcalls, Htoasts, Hf, Ht, !app_nil_r.
    split_and!.
    + cbn; lia.
    + destruct (fetchData props params); cbn; lia.
    + intros ps reason ->%list_elem_of_singleton Hres. by rewrite Hres.
    + intros ps res ->%list_elem_of_singleton Hres. by rewrite Hres.
Qed.

(** X17: every parameter object a handler passes to [fetchData] has
    [MaxResultCount: 10] and takes every key other than [skipCount],
    [MaxResultCount] and [keyword] unchanged from [param]: [param] cannot
    override the page or the page size.  Its [keyword] is that of [param],
    if any, except for a search with a non-empty query, which overrides
    it. *)
Theorem handler_fetch_params (props : Props) (a : Action) (st : State)
    (params : FetchParams) :
  params ∈ fetch_calls (trace (handler props a st)) →
  params !! "MaxResultCount" = Some (VNum 10) ∧
  (∃ page, params !! "skipCount" = Some (VNum page)) ∧
  (∀ k, k ∉ own_keys → params !! k = param props !! k) ∧
  (params !! "keyword" = param props !! "keyword" ∨
   ∃ query, a = Search query ∧ query ≠ "" ∧
            params !! "keyword" = Some (VStr query)).
Proof.
  destruct (handler_cases props a st)
    as [(st' & t & -> & Hf & _)
       |(ps & isLoadMore & s0 & tail & -> & Hgo & Hf & _ & Hm & Hs & _ & Hk & Hw)].
  - unfold trace. cbn [snd]. rewrite Hf.
    intros Hin. by apply not_elem_of_nil in Hin.
  - rewrite trace_triple.
    destruct (getData_proceeds_trace props ps isLoadMore s0 Hgo)
      as (Hcalls & _).
    rewrite fetch_calls_app, Hcalls, Hf.
    intros ->%list_elem_of_singleton. eauto 6.
Qed.

Lemma handler_fetch_params_witness :
  let props :=
    {| fetchData := λ _, page_of ten_items; modelValue := VStr "";
       name := "";
       param := <["skipCount" := VNum 99]> (<["tenant" := VStr "t1"]> ∅) |} in
  let params :=
    <["keyword" := VStr "abc"]>
      (<["MaxResultCount" := VNum 10]>
         (<["skipCount" := VNum 1]> (param props))) in
  params ∈ fetch_calls (trace (handler props (Search "abc") (init props))) ∧
  params !! "skipCount" = Some (VNum 1) ∧
  params !! "tenant" = Some (VStr "t1").
Proof.
  cbn zeta.
  set (props := {| fetchData := λ _, page_of ten_items; modelValue := VStr "";
       name := "";
       param := <["skipCount" := VNum 99]> (<["tenant" := VStr "t1"]> ∅) |}).
  set (params := <["keyword" := VStr "abc"]>
      (<["MaxResultCount" := VNum 10]>
         (<["skipCount" := VNum 1]> (param props)))).
  assert (H : params ∈ fetch_calls
                (trace (handler props (Search "abc") (init props))))
    by (apply (bool_decide_unpack _); vm_compute; reflexivity).
  split; [exact H|].
  destruct (handler_fetch_params props (Search "abc") (init props) params H)
    as (_ & _ & Hk & _).
  split; [reflexivity|].
  rewrite (Hk "tenant"); [reflexivity|].
  apply (bool_decide_unpack _). vm_compute. reflexivity.
Defined.

Lemma handler_step_invariant (props : Props) (a : Action) (st : State) :
  loading st = false → 1 ≤ currentPage st →
  let r := handler props a st in
  loading (cells r) = false ∧ 1 ≤ currentPage (cells r) ∧
  ∀ ps snapshot, EvFetch ps snapshot ∈ trace r →
    ps !! "MaxResultCount" = Some (VNum 10) ∧
    ps !! "skipCount" = Some (VNum (currentPage snapshot)) ∧
    1 ≤ currentPage snapshot ∧ loading snapshot = true.
Proof.
  intros Hl Hp. cbn zeta.
  destruct (handler_cases props a st)
    as [(st' & t & -> & Hf & _ & Hp' & Hl' & _)
       |(ps & isLoadMore & s0 & tail & -> & Hgo & Hf & _ & Hm & Hs & Hp0 & _)].
  - rewrite cells_triple, trace_triple. split_and!; [congruence|lia|].
    intros ps snapshot Hin. by apply fetch_calls_nil_not_elem in Hin.
  - rewrite cells_triple, trace_triple.
    destruct (getData_summary props ps isLoadMore s0)
      as (s1 & t1 & E & _ & Hp1 & _ & Hl1 & _).
    rewrite Hgo in Hl1.
    pose proof (getData_proceeds_trace props ps isLoadMore s0 Hgo)
      as (_ & _ & Honly).
    rewrite E in *. rewrite cells_triple.
    split_and!; [done|lia|].
    intros ps' snapshot [Hin|Hin]%elem_of_app.
    + apply Honly in Hin as [-> ->]. cbn. split_and!; auto.
    + by apply fetch_calls_nil_not_elem in Hin.
Qed.

Lemma run_invariant (actions : list Action) :
  ∀ props st,
    loading st = false → 1 ≤ currentPage st →
    let r := run props actions st in
    loading r.1.2 = false ∧ 1 ≤ currentPage r.1.2 ∧
    fetchData r.1.1 = fetchData props ∧
    ∀ ps snapshot, EvFetch ps snapshot ∈ r.2 →
      ps !! "MaxResultCount" = Some (VNum 10) ∧
      ps !! "skipCount" = Some (VNum (currentPage snapshot)) ∧
      1 ≤ currentPage snapshot ∧ loading snapshot = true.
Proof.
  induction actions as [|a rest IH]; intros props st Hl Hp; cbn zeta.
  - cbn. split_and!; [done..|].
    intros ps snapshot Hin. by apply not_elem_of_nil in Hin.
  - cbn [run].
    destruct (handler_step_invariant (props_after props a) a st Hl Hp)
      as (Hl1 & Hp1 & Hfetch1).
    specialize (IH (props_after props a)
                  (cells (handler (props_after props a) a st)) Hl1 Hp1).
    cbn zeta in IH.
    destruct (run (props_after props a) rest
                (cells (handler (props_after props a) a st)))
      as [[props2 st2] t2].
    cbn in IH |- *. destruct IH as (Hl2 & Hp2 & Hfd & Hfetch2).
    split_and!; [done..| |].
    + rewrite Hfd. by destruct a.
    + intros ps snapshot [Hin|Hin]%elem_of_app; [by apply Hfetch1|by apply Hfetch2].
Qed.

(** X18: at the end of any session (the mount, then any searches, scrolls,
    openings, closings, picks and prop changes in any order) no load is
    marked in flight and the page counter is at least 1; and every call of
    [fetchData] made during the session asked for ten items of the page the
    counter showed at that call, with [loading] set. *)
Theorem session_invariant (props : Props) (actions : list Action) :
  let r := session props actions in
  loading r.1.2 = false ∧ 1 ≤ currentPage r.1.2 ∧
  ∀ ps snapshot, EvFetch ps snapshot ∈ r.2 →
    ps !! "MaxResultCount" = Some (VNum 10) ∧
    ps !! "skipCount" = Some (VNum (currentPage snapshot)) ∧
    1 ≤ currentPage snapshot ∧ loading snapshot = true.
Proof.
  cbn zeta. unfold session, onMounted.
  fold (first_page_params props).
  pose proof (getData_proceeds_trace props (first_page_params props) false
                (init props) (proceeds_replace _)) as (_ & _ & Honly).
  destruct (getData_summary props (first_page_params props) false (init props))
    as (s1 & t1 & E & _ & Hp1 & _ & Hl1 & _).
  rewrite proceeds_replace in Hl1. rewrite E in *.
  rewrite cells_triple, trace_triple.
  rewrite trace_triple in Honly.
  destruct (run_invariant actions props s1 Hl1) as (Hl2 & Hp2 & _ & Hfetch);
    [by rewrite Hp1|].
  destruct (run props actions s1) as [[props2 st2] t2]. cbn in *.
  split_and!; [done..|].
  intros ps snapshot [Hin|Hin]%elem_of_app; [|by apply Hfetch].
  apply Honly in Hin as [-> ->]. cbn.
  unfold first_page_params. split_and!; [lookup_params..|done|done].
Qed.

Lemma run_totalItems (actions : list Action) :
  ∀ props st,
    Forall (λ a, ∀ n, a ≠ NameChanged n) actions →
    totalItems st = Z.of_nat (length (itemList st)) →
    let r := run props actions st in
    totalItems r.1.2 = Z.of_nat (length (itemList r.1.2)).
Proof.
  induction actions as [|a rest IH]; intros props st Hall Hst; cbn zeta;
    [done|].
  apply Forall_cons in Hall as [Ha Hrest]. cbn [run].
  assert (Hstep : totalItems (cells (handler (props_after props a) a st)) =
                  Z.of_nat (length (itemList
                     (cells (handler (props_after props a) a st))))).
  { destruct (handler_cases (props_after props a) a st)
      as [(st' & t & -> & _ & _ & _ & _ & Ht & Hi)
         |(ps & isLoadMore & s0 & tail & -> & Hgo & _)].
    - rewrite cells_triple, Ht, Hi by done. exact Hst.
    - rewrite cells_triple.
      destruct (getData_summary (props_after props a) ps isLoadMore s0)
        as (s1 & t1 & -> & _ & _ & Ht & _).
      by rewrite Hgo in Ht. }
  specialize (IH (props_after props a) _ Hrest Hstep). cbn zeta in IH.
  by destruct (run _ rest _) as [[props2 st2] t2].
Qed.

(** X19: at the end of a session in which the [name] prop never changes,
    [totalItems] is the length of [itemList]. *)
Theorem session_totalItems (props : Props) (actions : list Action) :
  Forall (λ a, ∀ n, a ≠ NameChanged n) actions →
  let r := session props actions in
  totalItems r.1.2 = Z.of_nat (length (itemList r.1.2)).
Proof.
  intros Hall. cbn zeta. unfold session, onMounted.
  fold (first_page_params props).
  destruct (getData_summary props (first_page_params props) false (init props))
    as (s1 & t1 & E & _ & _ & Ht & _).
  rewrite proceeds_replace in Ht. rewrite E, cells_triple.
  pose proof (run_totalItems actions props s1 Hall Ht) as H. cbn zeta in H.
  by destruct (run props actions s1) as [[props2 st2] t2].
Qed.

Lemma session_totalItems_witness :
  let r := session props_ten
             [VisibleChange doc_open true; Scroll at_bottom; Search "x";
              Picked (VNum 3); VisibleChange doc_open false] in
  totalItems r.1.2 = Z.of_nat (length (itemList r.1.2)).
Proof.
  apply (session_totalItems props_ten
           [VisibleChange doc_open true; Scroll at_bottom; Search "x";
            Picked (VNum 3); VisibleChange doc_open false]).
  repeat (apply Forall_cons; split; [discriminate|]). apply Forall_nil_2.
Defined.

(** The [name] watcher is the exception: it lengthens the list and leaves
    [totalItems] as it was. *)
Example name_change_leaves_totalItems_behind :
  let props := props_answering (page_of [mk_item 1 "a"; mk_item 2 "b"])
                 (VNum 7) "" in
  let r := session props [NameChanged "g"] in
  totalItems r.1.2 = 2 ∧ length (itemList r.1.2) = 3%nat.
Proof. vm_compute. by split. Qed.

(** ** The debounced wrappers, continued *)

Lemma burst_calls_last {A : Type} (burst : list A) (last : A)
    (timeout : Debounce.Timer A) :
  burst_calls (burst ++ [last]) timeout = Some last.
Proof. unfold burst_calls. by rewrite foldl_app. Qed.

(** X20: however many times the debounced search is called before its timer
    expires, the expiry calls [fetchData] exactly once, for the query of the
    last call (with [keyword] when that query is non-empty); the timer is
    then disarmed, and an expiry with nothing armed runs nothing. *)
Theorem debounced_search_fetches_latest_once (props : Props)
    (burst : list string) (last : string) (timeout : Debounce.Timer string)
    (st : State) :
  let expiry :=
    Debounce.expire (remoteSearch props) (burst_calls (burst ++ [last]) timeout) in
  fetch_calls (trace (expiry.1 st)) =
    [if decide (last = "") then
       <["MaxResultCount" := VNum 10]> (<["skipCount" := VNum 1]> (param props))
     else
       <["keyword" := VStr last]>
         (<["MaxResultCount" := VNum 10]>
            (<["skipCount" := VNum 1]> (param props)))] ∧
  expiry.2 = None ∧
  ∀ st', (Debounce.expire (remoteSearch props) expiry.2).1 st'
         = (Returned tt, st', []).
Proof.
  cbn zeta. rewrite burst_calls_last. cbn. split; [|done].
  rewrite remoteSearch_run.
  destruct (getData_proceeds_trace props (search_params props last) false
              (set_hasMore true (set_currentPage 1 st)) (proceeds_replace _))
    as (-> & _).
  done.
Qed.

(** ** The end of the list *)

(** X21: after a load that failed, or whose page did not have
    [MaxResultCount] items, scrolling to the bottom does nothing: no further
    page is asked for until the dropdown is opened again or a search
    runs. *)
Theorem handleScroll_after_last_page (props : Props) (params : FetchParams)
    (isLoadMore : bool) (st : State) (target : ScrollTarget) :
  proceeds st isLoadMore = true →
  match fetchData props params with
  | Resolved res =>
      truthy (error res) = true ∨
      params !! "MaxResultCount" ≠ Some (VNum (returnedCount res))
  | Rejected _ => True
  end →
  let st1 := cells (getData props params isLoadMore st) in
  handleScroll props target st1 = (Returned tt, st1, []).
Proof.
  intros Hgo Hlast. cbn zeta.
  apply handleScroll_not_triggered. right; right.
  destruct (fetchData props params) as [res|reason] eqn:Hres.
  - destruct (truthy (error res)) eqn:Herr.
    + by rewrite (getData_resolved_error _ _ _ _ res).
    + rewrite (getData_resolved_ok _ _ _ _ res) by done. cbn.
      destruct Hlast as [?|Hne]; [done|].
      rewrite newItems_of_length. unfold strict_eq.
      apply bool_decide_eq_false_2. intros Heq.
      by apply prop_get_Some in Heq.
  - by rewrite (getData_rejected _ _ _ _ reason).
Qed.

Lemma handleScroll_after_last_page_witness :
  let st1 := cells (getData props_selected (first_page_params props_selected)
                      false (init props_selected)) in
  handleScroll props_selected at_bottom st1 = (Returned tt, st1, []).
Proof.
  apply (handleScroll_after_last_page props_selected
           (first_page_params props_selected) false (init props_selected)
           at_bottom).
  - reflexivity.
  - right. vm_compute. discriminate.
Defined.

(** ** Failures and the document *)

(** X22: when the load of the next page fails (rejection or error flag),
    the whole list is emptied, the pages loaded before included, [hasMore]
    becomes false and the page counter stays at the page that failed. *)
Theorem handleScroll_failure_empties_list (props : Props)
    (target : ScrollTarget) (st : State) :
  scrollHeight target = scrollTop target + clientHeight target →
  loading st = false → hasMore st = true →
  match fetchData props (page_params props (currentPage st + 1)) with
  | Resolved res => truthy (error res) = true
  | Rejected _ => True
  end →
  let r := handleScroll props target st in
  itemList (cells r) = [] ∧ totalItems (cells r) = 0 ∧
  hasMore (cells r) = false ∧ currentPage (cells r) = currentPage st + 1 ∧
  loading (cells r) = false.
Proof.
  intros Hb Hl Hm Hfail. cbn zeta.
  rewrite handleScroll_bottom_run by done.
  assert (Hgo : proceeds (set_currentPage (currentPage st + 1) st) true = true)
    by by apply proceeds_hasMore.
  destruct (fetchData props (page_params props (currentPage st + 1)))
    as [res|reason] eqn:Hres.
  - by rewrite (getData_resolved_error _ _ _ _ res).
  - by rewrite (getData_rejected _ _ _ _ reason).
Qed.

Lemma handleScroll_failure_empties_list_witness :
  let props := props_answering (Rejected (VStr "timeout")) (VNum 2) "b" in
  let r := handleScroll props at_bottom st_first_page in
  itemList (cells r) = [] ∧ totalItems (cells r) = 0 ∧
  hasMore (cells r) = false ∧ currentPage (cells r) = 2 ∧
  loading (cells r) = false.
Proof.
  apply (handleScroll_failure_empties_list
           (props_answering (Rejected (VStr "timeout")) (VNum 2) "b")
           at_bottom st_first_page); reflexivity || exact I.
Defined.

(** X23: everything opening the dropdown does, in order: one call of
    [fetchData] for the first page, the toast if that call is rejected, and
    only then, when the popup's scroll container is in the document, the
    registration of the scroll listener on it and the reset of its scroll
    position to 0, whether the load succeeded or not. *)
Theorem handleVisibleChange_open_trace (props : Props) (document : Document)
    (st : State) :
  trace (handleVisibleChange props document true st) =
    EvFetch
      (<["MaxResultCount" := VNum 10]> (<["skipCount" := VNum 1]> (param props)))
      {| value := value st; itemList := []; totalItems := 0;
         loading := true; currentPage := 1; hasMore := true |}
    :: match fetchData props
               (<["MaxResultCount" := VNum 10]>
                  (<["skipCount" := VNum 1]> (param props))) with
       | Rejected reason => [EvMessage reason "el" "error"]
       | Resolved _ => []
       end
    ++ (if has_loadmore_wrap document then
          [EvAddScrollListener ".myselect-loadmore .el-select-dropdown__wrap";
           EvSetScrollTop ".myselect-loadmore .el-select-dropdown__wrap" 0]
        else []).
Proof.
  rewrite handleVisibleChange_open_run, trace_triple.
  destruct (getData_summary props (first_page_params props) false (reset st))
    as (s1 & t1 & -> & _ & _ & _ & _ & ->).
  by rewrite trace_triple, proceeds_replace.
Qed.

(** X24: the selected value is changed by the [modelValue] watcher and by a
    pick only: no search, scroll, opening, closing or change of [name] or
    [param] changes it, whatever [fetchData] answers. *)
Theorem handler_keeps_value (props : Props) (a : Action) (st : State) :
  (∀ v, a ≠ ModelValueChanged v) → (∀ v, a ≠ Picked v) →
  value (cells (handler props a st)) = value st.
Proof.
  intros Hwatch Hpick.
  destruct a as [query|target|document visible|newVal|newVal|newParam|val];
    cbn [handler].
  - rewrite remoteSearch_run.
    by destruct (getData_summary props (search_params props query) false
                   (set_hasMore true (set_currentPage 1 st)))
      as (s1 & t1 & -> & Hv & _).
  - destruct (decide (scrollHeight target
                      = scrollTop target + clientHeight target)) as [Hb|Hb];
      [destruct (loading st) eqn:Hl; [|destruct (hasMore st) eqn:Hm]|];
      try by rewrite handleScroll_not_triggered by auto.
    rewrite handleScroll_bottom_run by done.
    by destruct (getData_summary props (page_params props (currentPage st + 1))
                   true (set_currentPage (currentPage st + 1) st))
      as (s1 & t1 & -> & Hv & _).
  - destruct visible.
    + rewrite handleVisibleChange_open_run, cells_triple.
      by destruct (getData_summary props (first_page_params props) false
                     (reset st)) as (s1 & t1 & -> & Hv & _).
    + unfold handleVisibleChange, emit. cbv [mret M_ret].
      by destruct (has_dropdown document).
  - by destruct (Hwatch newVal).
  - by destruct (watch_name_cells newVal st) as (l & ->).
  - done.
  - by destruct (Hpick val).
Qed.

Lemma handler_keeps_value_witness :
  value (cells (handler props_next_page (Scroll at_bottom) st_first_page))
    = VNum 2.
Proof.
  apply (handler_keeps_value props_next_page (Scroll at_bottom) st_first_page);
    discriminate.
Defined.
